(** * PySceneDetect: the [VideoStream] contract and its OpenCV adapter

    A shallow embedding of [scenedetect/video_stream.py] and
    [scenedetect/backends/opencv.py].

    Conventions of the embedding:
    - Python [int] is [Z]; a Python [float] handed to the [downscale] setter
      is a [pyfloat]: a finite value, as the rational it denotes, or NaN or
      an infinity; the frame rates, the times in seconds and the properties
      of the decoder are finite and are rationals [Q];
    - a Python exception is a constructor of [exn] carrying the message of
      the source, and a call that may raise returns an [outcome];
    - [logger] calls are returned as the list of records they emit;
    - [self] is passed explicitly and the updated object is returned. *)

From Stdlib Require Import ZArith QArith Qabs String List Bool Sorted Lia.
Import ListNotations.

Local Open Scope string_scope.
Local Open Scope Z_scope.

(** ** Python values and exceptions *)

Inductive exn : Type :=
| ValueError (msg : string)
| TypeError (msg : string)
| OverflowError (msg : string)
| KeyError (msg : string)
| IOError (msg : string)
| RuntimeError (msg : string)
| SeekError (msg : string)
| VideoOpenFailure (msg : string).

Inductive outcome (A : Type) : Type :=
| Return (a : A)
| Raise (e : exn).

Arguments Return {A} a.
Arguments Raise {A} e.

Inductive log_level : Type := WARNING | ERROR.

Definition log_record : Type := (log_level * string)%type.

(** A Python [float]: a finite double, as the rational it denotes, NaN, or
    an infinity with its sign. *)
Inductive pyfloat : Type :=
| Finite (q : Q)
| NaN
| Infinity (negative : bool).

(** The dynamically typed values that reach the [downscale] setter. *)
Inductive pyval : Type :=
| PyNone
| PyInt (z : Z)
| PyFloat (x : pyfloat).

Definition Qltb (x y : Q) : bool := negb (Qle_bool y x).

(** [math.trunc] and [int()] on a float: rounding towards zero. *)
Definition math_trunc (q : Q) : Z := Z.quot (Qnum q) (Z.pos (Qden q)).

Definition isinstance_int (v : pyval) : bool :=
  match v with
  | PyInt _ => true
  | _ => false
  end.

Definition is_None (v : pyval) : bool :=
  match v with
  | PyNone => true
  | _ => false
  end.

(** [v < n] for an [int] literal [n].  Every comparison with NaN is false;
    minus infinity is below every number and plus infinity below none. *)
Definition py_lt (v : pyval) (n : Z) : outcome bool :=
  match v with
  | PyNone =>
      Raise (TypeError "'<' not supported between instances of 'NoneType' and 'int'")
  | PyInt z => Return (z <? n)
  | PyFloat (Finite q) => Return (Qltb q (inject_Z n))
  | PyFloat NaN => Return false
  | PyFloat (Infinity negative) => Return negative
  end.


Definition int_of_nan_error : exn :=
  ValueError "cannot convert float NaN to integer".

Definition int_of_infinity_error : exn :=
  OverflowError "cannot convert float infinity to integer".

(** [int(v)]: a finite float is truncated; NaN and the infinities have no
    integer and raise. *)
Definition py_int (v : pyval) : outcome pyval :=
  match v with
  | PyNone =>
      Raise (TypeError "int() argument must be a string, a bytes-like object or a real number, not 'NoneType'")
  | PyInt z => Return (PyInt z)
  | PyFloat (Finite q) => Return (PyInt (math_trunc q))
  | PyFloat NaN => Raise int_of_nan_error
  | PyFloat (Infinity _) => Raise int_of_infinity_error
  end.

(** The number a value denotes, when it is one: [None], NaN and the
    infinities denote none. *)
Definition py_value (v : pyval) : option Q :=
  match v with
  | PyInt z => Some (inject_Z z)
  | PyFloat (Finite q) => Some q
  | _ => None
  end.

(** ** [video_stream.py]: the downscale policy *)

(** A [dict] literal keeps its insertion order. *)
Definition DEFAULT_DOWNSCALE_FACTORS : list (Z * Z) :=
  [ (3200, 12); (2100, 8); (1700, 6); (1200, 5); (900, 4); (600, 3); (400, 2) ].

Definition dict_keys (d : list (Z * Z)) : list Z := map fst d.

(** [d[k]]. *)
Fixpoint dict_getitem (d : list (Z * Z)) (k : Z) : outcome Z :=
  match d with
  | [] => Raise (KeyError "")
  | (k', v) :: rest => if k' =? k then Return v else dict_getitem rest k
  end.

(** [sorted(keys, reverse=True)], as a stable insertion sort. *)
Fixpoint insert_desc (k : Z) (l : list Z) : list Z :=
  match l with
  | [] => [k]
  | x :: rest => if x <? k then k :: l else x :: insert_desc k rest
  end.

Definition sorted_reverse (l : list Z) : list Z := fold_right insert_desc [] l.

(** The [for width in ...] loop of [compute_downscale_factor]. *)
Fixpoint first_width_at_most (d : list (Z * Z)) (frame_width : Z) (widths : list Z)
  : outcome Z :=
  match widths with
  | [] => Return 1
  | width :: rest =>
      if frame_width >=? width then dict_getitem d width
      else first_width_at_most d frame_width rest
  end.

Definition compute_downscale_factor (frame_width : Z) : outcome Z :=
  first_width_at_most DEFAULT_DOWNSCALE_FACTORS frame_width
    (sorted_reverse (dict_keys DEFAULT_DOWNSCALE_FACTORS)).

(** ** [video_stream.py]: the state shared by every backend *)

Record VideoStream : Type := { _downscale : pyval }.

(** [VideoStream.__init__]. *)
Definition VideoStream_init : VideoStream := {| _downscale := PyInt 1 |}.

Definition downscale (self : VideoStream) : pyval := _downscale self.

Definition downscale_error : exn :=
  ValueError "Downscale factor must be a positive integer >= 1!".

Definition downscale_warning : log_record :=
  (WARNING, "Downscale factor will be truncated to integer!").

(** The [downscale] setter. *)
Definition downscale_setter (downscale_factor : pyval) (self : VideoStream)
  : list log_record * outcome VideoStream :=
  match py_lt downscale_factor 1 with
  | Raise e => ([], Raise e)
  | Return true => ([], Raise downscale_error)
  | Return false =>
      if negb (is_None downscale_factor) && negb (isinstance_int downscale_factor)
      then
        match py_int downscale_factor with
        | Raise e => ([downscale_warning], Raise e)
        | Return coerced => ([downscale_warning], Return {| _downscale := coerced |})
        end
      else ([], Return {| _downscale := downscale_factor |})
  end.

(** A caller that assigns each value of [vs] in turn and carries on after a
    rejected assignment, which leaves the object as it was. *)
Fixpoint assign_downscales (vs : list pyval) (self : VideoStream) : VideoStream :=
  match vs with
  | [] => self
  | v :: rest =>
      match snd (downscale_setter v self) with
      | Return self' => assign_downscales rest self'
      | Raise _ => assign_downscales rest self
      end
  end.

(** ** The timecode of a position in a stream *)

(** Modelled from the spec: [scenedetect/frame_timecode.py], the module of
    [FrameTimecode] and [MINIMUM_FRAMES_PER_SECOND_FLOAT], is not among the
    sources.  A timecode is a zero-based frame number at a fixed frame rate;
    adding an integer offset adds it to the frame number and keeps the rate;
    the time in seconds of frame [n] is [n / frame_rate]. *)
Record FrameTimecode : Type := {
  frame_num : Z;
  framerate : Q
}.

(** A seek target: [Union[FrameTimecode, float, int]]. *)
Inductive seek_target : Type :=
| TargetTimecode (t : FrameTimecode)
| TargetFloat (seconds : Q)
| TargetInt (frame : Z).

(** Modelled from the spec: [FrameTimecode(timecode=n, fps=rate)]. *)
Definition FrameTimecode_new (timecode : Z) (fps : Q) : FrameTimecode :=
  {| frame_num := timecode; framerate := fps |}.

(** Modelled from the spec: [FrameTimecode.get_frames]. *)
Definition get_frames (t : FrameTimecode) : Z := frame_num t.

(** Modelled from the spec: [FrameTimecode.__add__] of the absent module.  An
    integer is an offset in frames, a timecode is used as it is, and a float
    is a time in seconds converted through the frame rate; the spec does not
    say how [seconds * frame_rate] becomes a whole number of frames, so that
    rounding is the parameter [round_frames]. *)
Definition timecode_add (round_frames : Q -> Z) (t : FrameTimecode) (other : seek_target)
  : FrameTimecode :=
  match other with
  | TargetInt offset =>
      {| frame_num := frame_num t + offset; framerate := framerate t |}
  | TargetTimecode t' =>
      {| frame_num := frame_num t + frame_num t'; framerate := framerate t |}
  | TargetFloat seconds =>
      {| frame_num := frame_num t + round_frames (seconds * framerate t)%Q;
         framerate := framerate t |}
  end.

(** ** The decoder: [cv2.VideoCapture] *)

Inductive cap_prop : Type :=
| CAP_PROP_POS_MSEC
| CAP_PROP_POS_FRAMES
| CAP_PROP_FRAME_WIDTH
| CAP_PROP_FRAME_HEIGHT
| CAP_PROP_FPS
| CAP_PROP_FOURCC
| CAP_PROP_FRAME_COUNT.

(** [Union[str, int]]: a path, or the index of a capture device. *)
Inductive path_or_device : Type :=
| Path (path : string)
| Device (index : Z).

(** The part of OpenCV the adapter calls.  The decoder is an external
    library: the adapter is written against this interface, and a decoder
    state is a value of [cap].  [grab], [cap_set] and [retrieve] return the
    decoder after the call; the booleans OpenCV returns from [set] and
    [grab] are dropped because the adapter never looks at them.  [cap_set]
    takes any rational: the error the binding raises for an integer too
    large for a double is not modelled. *)
Class VideoCapture (cap ndarray : Type) : Type := {
  cv2_VideoCapture : path_or_device -> cap;
  isOpened : cap -> bool;
  cap_get : cap -> cap_prop -> Q;
  cap_set : cap -> cap_prop -> Q -> cap;
  grab : cap -> cap;
  retrieve : cap -> cap * (bool * option ndarray)
}.

(** ** [backends/opencv.py]: the adapter *)

(** The fields of a [VideoStreamCv2] once [__init__] has returned.  In the
    source [_cap] and [_frame_rate] are [None] only until [__init__] calls
    [_open_capture], so the object is built from what [_open_capture]
    returns. *)
Record VideoStreamCv2 (cap : Type) : Type := {
  super : VideoStream;
  _path_or_device : path_or_device;
  _is_device : bool;
  _cap : cap;
  _frame_rate : Q;
  _has_seeked : bool;
  _has_grabbed : bool
}.

Arguments super {cap} _.
Arguments _path_or_device {cap} _.
Arguments _is_device {cap} _.
Arguments _cap {cap} _.
Arguments _frame_rate {cap} _.
Arguments _has_seeked {cap} _.
Arguments _has_grabbed {cap} _.

(** [isinstance(path_or_device, int)]. *)
Definition is_int_device (p : path_or_device) : bool :=
  match p with
  | Device _ => true
  | Path _ => false
  end.

(** [sub in s] on strings. *)
Fixpoint str_contains (sub s : string) : bool :=
  String.prefix sub s ||
  match s with
  | EmptyString => false
  | String _ rest => str_contains sub rest
  end.

(** The first line of the message logged for an unknown codec. *)
Definition codec_error : log_record :=
  (ERROR, "Video codec detection failed, output may be incorrect.").

Definition seek_device_error : exn := SeekError "Cannot seek if input is a device!".

Definition seek_frame_error : exn := ValueError "Target frame number must start from 1!".

Definition seek_time_error : exn := ValueError "Target time in seconds must be positive!".

Definition position_ms_error : exn :=
  RuntimeError
    "Cannot access `position_ms` in a VideoStreamCv2 after calling `seek` until calling `read` with `advance=True`.".

Definition open_failure_not_opened : exn :=
  VideoOpenFailure "isOpened() returned False when opening OpenCV VideoCapture!".

Definition open_failure_framerate : exn :=
  VideoOpenFailure
    "Unable to obtain video framerate! Check the file/device/stream, or set the `framerate` to assume a given framerate.".

Section Adapter.

Context {cap ndarray : Type} {VC : VideoCapture cap ndarray}.

(** The constant of the absent [frame_timecode] module. *)
Variable MINIMUM_FRAMES_PER_SECOND_FLOAT : Q.

(** [os.path.exists]. *)
Variable os_path_exists : string -> bool.

(** The rounding of [timecode_add]. *)
Variable round_frames : Q -> Z.

Definition frame_rate (self : VideoStreamCv2 cap) : Q := _frame_rate self.

Definition is_seekable (self : VideoStreamCv2 cap) : bool := negb (_is_device self).

Definition frame_size (self : VideoStreamCv2 cap) : Z * Z :=
  (math_trunc (cap_get (_cap self) CAP_PROP_FRAME_WIDTH),
   math_trunc (cap_get (_cap self) CAP_PROP_FRAME_HEIGHT)).

(** [VideoStream.base_timecode]. *)
Definition base_timecode (self : VideoStreamCv2 cap) : FrameTimecode :=
  FrameTimecode_new 0 (frame_rate self).

Definition frame_number (self : VideoStreamCv2 cap) : Z :=
  math_trunc (cap_get (_cap self) CAP_PROP_POS_FRAMES).

Definition position (self : VideoStreamCv2 cap) : FrameTimecode :=
  if frame_number self <? 1 then base_timecode self
  else timecode_add round_frames (base_timecode self) (TargetInt (frame_number self - 1)).

Definition position_ms (self : VideoStreamCv2 cap) : outcome Q :=
  if _has_seeked self then Raise position_ms_error
  else Return (cap_get (_cap self) CAP_PROP_POS_MSEC).

Definition with_cap (c : cap) (self : VideoStreamCv2 cap) : VideoStreamCv2 cap :=
  {| super := super self;
     _path_or_device := _path_or_device self;
     _is_device := _is_device self;
     _cap := c;
     _frame_rate := _frame_rate self;
     _has_seeked := _has_seeked self;
     _has_grabbed := _has_grabbed self |}.

Definition with_has_grabbed (b : bool) (self : VideoStreamCv2 cap) : VideoStreamCv2 cap :=
  {| super := super self;
     _path_or_device := _path_or_device self;
     _is_device := _is_device self;
     _cap := _cap self;
     _frame_rate := _frame_rate self;
     _has_seeked := _has_seeked self;
     _has_grabbed := b |}.

Definition with_has_seeked (b : bool) (self : VideoStreamCv2 cap) : VideoStreamCv2 cap :=
  {| super := super self;
     _path_or_device := _path_or_device self;
     _is_device := _is_device self;
     _cap := _cap self;
     _frame_rate := _frame_rate self;
     _has_seeked := b;
     _has_grabbed := _has_grabbed self |}.

(** [isinstance(target, int) and not target > 0]. *)
Definition int_not_positive (target : seek_target) : bool :=
  match target with
  | TargetInt n => negb (n >? 0)
  | _ => false
  end.

(** [isinstance(target, float) and target < 0.0]. *)
Definition float_negative (target : seek_target) : bool :=
  match target with
  | TargetFloat s => Qltb s 0
  | _ => false
  end.

(** [isinstance(target, int) and target == 0]. *)
Definition int_zero (target : seek_target) : bool :=
  match target with
  | TargetInt n => n =? 0
  | _ => false
  end.

(** [if isinstance(target, int): target -= 1]. *)
Definition to_zero_based (target : seek_target) : seek_target :=
  match target with
  | TargetInt n => TargetInt (n - 1)
  | _ => target
  end.

(** The frame index [seek] hands to the decoder on its general path. *)
Definition target_frame_cv2 (self : VideoStreamCv2 cap) (target : seek_target) : Z :=
  get_frames (timecode_add round_frames (base_timecode self) (to_zero_based target)).

Definition seek (target : seek_target) (self : VideoStreamCv2 cap)
  : outcome (VideoStreamCv2 cap) :=
  if _is_device self then Raise seek_device_error
  else if int_not_positive target then Raise seek_frame_error
  else if float_negative target then Raise seek_time_error
  else if int_zero target then
    let self := with_cap (cap_set (_cap self) CAP_PROP_POS_FRAMES 0%Q) self in
    Return (with_has_grabbed false self)
  else
    let self :=
      with_cap (cap_set (_cap self) CAP_PROP_POS_FRAMES
                  (inject_Z (target_frame_cv2 self target))) self in
    let self := with_cap (grab (_cap self)) self in
    Return (with_has_grabbed true self).

Definition read (decode advance : bool) (self : VideoStreamCv2 cap)
  : option ndarray * VideoStreamCv2 cap :=
  if negb (isOpened (_cap self)) then (None, self)
  else
    let self :=
      if advance
      then with_has_seeked false (with_has_grabbed true (with_cap (grab (_cap self)) self))
      else self in
    if decode && _has_grabbed self then
      let '(c, (_, frame)) := retrieve (_cap self) in
      (frame, with_cap c self)
    else (None, self).

(** [self._is_device and self._path_or_device < 0]. *)
Definition negative_device (source : path_or_device) : bool :=
  match source with
  | Device index => index <? 0
  | Path _ => false
  end.

(** The test in front of [raise IOError]: a path that is neither an image
    sequence nor a URL, and that does not exist. *)
Definition file_not_found (source : path_or_device) : bool :=
  match source with
  | Path p =>
      negb (str_contains "%" p || str_contains "://" p) && negb (os_path_exists p)
  | Device _ => false
  end.

(** [_open_capture], up to the assignments at its end: the decoder it opened
    and the frame rate it resolved.  [if not framerate] holds of [None] and
    of a zero rate; both take the branch [queried]. *)
Definition _open_capture (source : path_or_device) (framerate : option Q)
  : list log_record * outcome (cap * Q) :=
  if negative_device source
  then ([], Raise (ValueError "Invalid/negative device ID specified."))
  else if file_not_found source
  then ([], Raise (IOError "Video file not found."))
  else
    let c := cv2_VideoCapture source in
    if negb (isOpened c) then ([], Raise open_failure_not_opened)
    else
      let log :=
        if math_trunc (Qabs (cap_get c CAP_PROP_FOURCC)) =? 0 then [codec_error] else [] in
      let queried :=
        let reported := cap_get c CAP_PROP_FPS in
        if Qltb reported MINIMUM_FRAMES_PER_SECOND_FLOAT
        then (log, Raise open_failure_framerate)
        else (log, Return (c, reported)) in
      match framerate with
      | None => queried
      | Some r => if Qeq_bool r 0 then queried else (log, Return (c, r))
      end.

(** [VideoStreamCv2.__init__]. *)
Definition __init__ (source : path_or_device) (override_framerate : option Q)
  : list log_record * outcome (VideoStreamCv2 cap) :=
  match _open_capture source override_framerate with
  | (log, Raise e) => (log, Raise e)
  | (log, Return (c, rate)) =>
      (log, Return {| super := VideoStream_init;
                      _path_or_device := source;
                      _is_device := is_int_device source;
                      _cap := c;
                      _frame_rate := rate;
                      _has_seeked := false;
                      _has_grabbed := false |})
  end.

End Adapter.

(** ** What the claims about the adapter speak of *)

Section DecoderLaws.

Context {cap ndarray : Type} {VC : VideoCapture cap ndarray}.

Definition pos_frames (c : cap) : Z := math_trunc (cap_get c CAP_PROP_POS_FRAMES).

Definition frame_count (c : cap) : Z := math_trunc (cap_get c CAP_PROP_FRAME_COUNT).

(** A decoder that counts frames: setting the position to a frame of the
    stream puts it there, a grab before the end of the stream moves the
    position on by one frame, and a retrieve leaves the position alone.  None
    of the three closes the decoder or changes the length of the stream. *)
Record counts_frames : Prop := {
  set_positions : forall (c : cap) (n : Z),
    0 <= n <= frame_count c ->
    pos_frames (cap_set c CAP_PROP_POS_FRAMES (inject_Z n)) = n;
  set_keeps : forall (c : cap) (v : Q),
    isOpened (cap_set c CAP_PROP_POS_FRAMES v) = isOpened c /\
    frame_count (cap_set c CAP_PROP_POS_FRAMES v) = frame_count c;
  grab_advances : forall c : cap,
    isOpened c = true -> pos_frames c < frame_count c ->
    pos_frames (grab c) = pos_frames c + 1;
  grab_keeps : forall c : cap,
    isOpened (grab c) = isOpened c /\ frame_count (grab c) = frame_count c;
  retrieve_keeps : forall c : cap,
    pos_frames (fst (retrieve c)) = pos_frames c
}.

End DecoderLaws.

Arguments counts_frames cap {ndarray VC}.

(** A caller's use of an open adapter: calls of [seek] and [read] in any
    order, carrying on after a [seek] that raised. *)
Inductive call : Type :=
| Seek (target : seek_target)
| Read (decode advance : bool).

Definition step {cap ndarray : Type} {VC : VideoCapture cap ndarray}
  (round_frames : Q -> Z) (self : VideoStreamCv2 cap) (c : call) : VideoStreamCv2 cap :=
  match c with
  | Seek target =>
      match seek round_frames target self with
      | Return self' => self'
      | Raise _ => self
      end
  | Read decode advance => snd (read decode advance self)
  end.

Definition run {cap ndarray : Type} {VC : VideoCapture cap ndarray}
  (round_frames : Q -> Z) (calls : list call) (self : VideoStreamCv2 cap)
  : VideoStreamCv2 cap :=
  fold_left (step round_frames) calls self.

(** The three states of the adapter, read off its two flags. *)
Inductive adapter_state : Type := INITIAL | POSITIONED | SEEK_PENDING.

Definition state_of {cap : Type} (self : VideoStreamCv2 cap) : adapter_state :=
  if _has_seeked self then SEEK_PENDING
  else if _has_grabbed self then POSITIONED
  else INITIAL.

(** The targets [seek] is documented to take, zero apart: a frame number
    from 1, a time that is not negative, or a timecode. *)
Definition valid_target (target : seek_target) : Prop :=
  match target with
  | TargetInt n => 1 <= n
  | TargetFloat s => (0 <= s)%Q
  | TargetTimecode _ => True
  end.

(** Descending order, as [sorted(..., reverse=True)] leaves the keys. *)
Definition descending : list Z -> Prop := StronglySorted (fun a b => b <= a).

(** The factor of the largest threshold of the table that is at most [w]. *)
Definition largest_threshold_at_most (w t f : Z) : Prop :=
  In (t, f) DEFAULT_DOWNSCALE_FACTORS /\ t <= w /\
  forall t' f', In (t', f') DEFAULT_DOWNSCALE_FACTORS -> t' <= w -> t' <= t.

(** ** The rest of the two classes *)

(** The value of [frame_size_effective]: a size; the pair [(nan, nan)] that
    dividing by NaN gives; or the [ZeroDivisionError] that Python's [/]
    raises on a zero divisor. *)
Inductive effective_size : Type :=
| EffectiveSize (width height : Q)
| EffectiveNaN
| ZeroDivisionError.

(** A decoder whose [retrieve] hands out the grabbed frame and leaves the
    decoder as it is. *)
Definition retrieve_reads_only (cap : Type) {ndarray : Type}
  {VC : VideoCapture cap ndarray} : Prop :=
  forall c : cap, fst (retrieve c) = c.

Section Rest.

Context {cap ndarray : Type} {VC : VideoCapture cap ndarray}.

Variable MINIMUM_FRAMES_PER_SECOND_FLOAT : Q.
Variable os_path_exists : string -> bool.

(** [cv2.VideoCapture.release]. *)
Variable release : cap -> cap.

(** The rounding of [timecode_add]. *)
Variable round_frames : Q -> Z.

Definition with_super (base : VideoStream) (self : VideoStreamCv2 cap)
  : VideoStreamCv2 cap :=
  {| super := base;
     _path_or_device := _path_or_device self;
     _is_device := _is_device self;
     _cap := _cap self;
     _frame_rate := _frame_rate self;
     _has_seeked := _has_seeked self;
     _has_grabbed := _has_grabbed self |}.

(** [VideoStream.downscale_auto]:
    [self.downscale = compute_downscale_factor(self.frame_size[0])]. *)
Definition downscale_auto (self : VideoStreamCv2 cap)
  : list log_record * outcome (VideoStreamCv2 cap) :=
  match compute_downscale_factor (fst (frame_size self)) with
  | Raise e => ([], Raise e)
  | Return factor =>
      match downscale_setter (PyInt factor) (super self) with
      | (log, Return base) => (log, Return (with_super base self))
      | (log, Raise e) => (log, Raise e)
      end
  end.

(** [VideoStream.frame_size_effective]; [/] is the true division of
    Python 3. *)
Definition frame_size_effective (self : VideoStreamCv2 cap) : effective_size :=
  let (width, height) := frame_size self in
  match downscale (super self) with
  | PyNone => EffectiveSize (inject_Z width) (inject_Z height)
  | PyInt d =>
      if d =? 0 then ZeroDivisionError
      else EffectiveSize (inject_Z width / inject_Z d) (inject_Z height / inject_Z d)
  | PyFloat (Finite d) =>
      if Qeq_bool d 0 then ZeroDivisionError
      else EffectiveSize (inject_Z width / d) (inject_Z height / d)
  | PyFloat NaN => EffectiveNaN
  | PyFloat (Infinity _) => EffectiveSize 0 0
  end.

(** [VideoStreamCv2.duration]. *)
Definition duration (self : VideoStreamCv2 cap) : option FrameTimecode :=
  if _is_device self then None
  else
    Some (timecode_add round_frames (base_timecode self)
            (TargetInt (math_trunc (cap_get (_cap self) CAP_PROP_FRAME_COUNT)))).

(** [VideoStreamCv2.reset].  The decoder is released before the source is
    opened again, so the object is returned also when opening raises: it then
    holds the released decoder.  [_open_capture] is given the source of the
    object; [_is_device] is [isinstance] of that source ever since
    [__init__]. *)
Definition reset (self : VideoStreamCv2 cap)
  : list log_record * (VideoStreamCv2 cap * option exn) :=
  let self := with_cap (release (_cap self)) self in
  match _open_capture MINIMUM_FRAMES_PER_SECOND_FLOAT os_path_exists
          (_path_or_device self) (Some (_frame_rate self)) with
  | (log, Raise e) => (log, (self, Some e))
  | (log, Return (c, rate)) =>
      (log, ({| super := super self;
                _path_or_device := _path_or_device self;
                _is_device := _is_device self;
                _cap := c;
                _frame_rate := rate;
                _has_seeked := false;
                _has_grabbed := false |}, None))
  end.

End Rest.

(** ** A decoder to run the adapter on *)

(** A small stand-in for OpenCV on a machine with three files and one
    camera, on which the adapter can be evaluated. *)
Module Sim.

(** A clip of [clip_frames] frames; a frame is named by its one-based index.
    [clip_pos] is the number of frames grabbed so far. *)
Record clip : Type := {
  clip_opened : bool;
  clip_fps : Q;
  clip_frames : Z;
  clip_width : Z;
  clip_height : Z;
  clip_fourcc : Z;
  clip_pos : Z
}.

Definition make (fps : Q) (frames : Z) : clip :=
  {| clip_opened := true; clip_fps := fps; clip_frames := frames;
     clip_width := 1280; clip_height := 720; clip_fourcc := 875967080;
     clip_pos := 0 |}.

Definition closed : clip :=
  {| clip_opened := false; clip_fps := 0; clip_frames := 0;
     clip_width := 0; clip_height := 0; clip_fourcc := 0; clip_pos := 0 |}.

(** The files of the machine. *)
Definition files : list (string * clip) :=
  [ ("clip.mp4", make 24 100);
    ("slow.mp4", make (1 # 1000) 100);
    ("still.mp4", make 0 100) ].

Fixpoint find_file (fs : list (string * clip)) (p : string) : option clip :=
  match fs with
  | [] => None
  | (name, c) :: rest => if String.eqb name p then Some c else find_file rest p
  end.

Definition clip_open (source : path_or_device) : clip :=
  match source with
  | Path p => match find_file files p with Some c => c | None => closed end
  | Device index => if index =? 0 then make 30 (-1) else closed
  end.

Definition at_pos (c : clip) (n : Z) : clip :=
  {| clip_opened := clip_opened c; clip_fps := clip_fps c;
     clip_frames := clip_frames c; clip_width := clip_width c;
     clip_height := clip_height c; clip_fourcc := clip_fourcc c;
     clip_pos := n |}.

Definition clip_get (c : clip) (p : cap_prop) : Q :=
  match p with
  | CAP_PROP_POS_MSEC =>
      if clip_pos c <? 1 then 0
      else (inject_Z (1000 * (clip_pos c - 1)) / clip_fps c)%Q
  | CAP_PROP_POS_FRAMES => inject_Z (clip_pos c)
  | CAP_PROP_FRAME_WIDTH => inject_Z (clip_width c)
  | CAP_PROP_FRAME_HEIGHT => inject_Z (clip_height c)
  | CAP_PROP_FPS => clip_fps c
  | CAP_PROP_FOURCC => inject_Z (clip_fourcc c)
  | CAP_PROP_FRAME_COUNT => inject_Z (clip_frames c)
  end.

(** A position past the end is the end; one before the start is the start. *)
Definition clip_set (c : clip) (p : cap_prop) (v : Q) : clip :=
  match p with
  | CAP_PROP_POS_FRAMES =>
      at_pos c (Z.max 0 (Z.min (math_trunc v) (clip_frames c)))
  | _ => c
  end.

Definition clip_grab (c : clip) : clip :=
  if clip_opened c && (clip_pos c <? clip_frames c)
  then at_pos c (clip_pos c + 1)
  else c.

Definition clip_retrieve (c : clip) : clip * (bool * option Z) :=
  if clip_opened c && (1 <=? clip_pos c) && (clip_pos c <=? clip_frames c)
  then (c, (true, Some (clip_pos c)))
  else (c, (false, None)).

#[global] Instance decoder : VideoCapture clip Z :=
  {| cv2_VideoCapture := clip_open;
     isOpened := clip_opened;
     cap_get := clip_get;
     cap_set := clip_set;
     grab := clip_grab;
     retrieve := clip_retrieve |}.

(** A value for the constant of the absent module: one frame in 1000
    seconds. *)
Definition MINIMUM_FRAMES_PER_SECOND_FLOAT : Q := 1 # 1000.

Definition os_path_exists (p : string) : bool :=
  match find_file files p with
  | Some _ => true
  | None => false
  end.

(** [VideoStreamCv2(source, override)] on this machine. *)
Definition init (source : path_or_device) (override : option Q)
  : list log_record * outcome (VideoStreamCv2 clip) :=
  __init__ MINIMUM_FRAMES_PER_SECOND_FLOAT os_path_exists source override.

(** [VideoStreamCv2("clip.mp4")] as [__init__] leaves it. *)
Definition file_stream : VideoStreamCv2 clip :=
  {| super := VideoStream_init;
     _path_or_device := Path "clip.mp4";
     _is_device := false;
     _cap := make 24 100;
     _frame_rate := 24;
     _has_seeked := false;
     _has_grabbed := false |}.

(** [VideoStreamCv2(0)], the camera, as [__init__] leaves it. *)
Definition camera_stream : VideoStreamCv2 clip :=
  {| super := VideoStream_init;
     _path_or_device := Device 0;
     _is_device := true;
     _cap := make 30 (-1);
     _frame_rate := 30;
     _has_seeked := false;
     _has_grabbed := false |}.

(** Releasing closes the clip. *)
Definition clip_release (c : clip) : clip :=
  {| clip_opened := false; clip_fps := clip_fps c;
     clip_frames := clip_frames c; clip_width := clip_width c;
     clip_height := clip_height c; clip_fourcc := clip_fourcc c;
     clip_pos := clip_pos c |}.

(** [stream.seek(target)] with the rounding [math_trunc] for float targets. *)
Definition seek_trunc (target : seek_target) (self : VideoStreamCv2 clip)
  : outcome (VideoStreamCv2 clip) :=
  seek math_trunc target self.

End Sim.

(** * Facts about the downscale policy *)

Section SortedKeys.

Lemma insert_desc_In (k x : Z) (l : list Z) :
  In x (insert_desc k l) <-> x = k \/ In x l.
Proof.
  induction l as [|y l IH]; simpl.
  - intuition.
  - destruct (y <? k); simpl; rewrite ?IH; intuition.
Qed.

Lemma sorted_reverse_In (x : Z) (l : list Z) : In x (sorted_reverse l) <-> In x l.
Proof.
  induction l as [|y l IH]; simpl; [reflexivity|].
  rewrite insert_desc_In, IH. intuition.
Qed.

Lemma insert_desc_descending (k : Z) (l : list Z) :
  descending l -> descending (insert_desc k l).
Proof.
  unfold descending. induction l as [|y l IH]; simpl; intros Hl.
  - constructor; constructor.
  - inversion Hl as [|? ? Hs Hall]; subst.
    destruct (Z.ltb_spec y k) as [Hlt|Hge].
    + constructor; [assumption|].
      constructor; [lia|].
      rewrite Forall_forall in *. intros z Hz. specialize (Hall z Hz). lia.
    + constructor; [auto|].
      rewrite Forall_forall in *. intros z Hz.
      apply -> insert_desc_In in Hz. destruct Hz as [->|Hz]; [lia|auto].
Qed.

Lemma sorted_reverse_descending (l : list Z) : descending (sorted_reverse l).
Proof.
  induction l as [|y l IH]; simpl.
  - constructor.
  - apply insert_desc_descending, IH.
Qed.

(** The loop stops at the first width that fits, which in a descending list
    is the largest one. *)
Lemma first_width_at_most_largest (d : list (Z * Z)) (w : Z) (ws : list Z) :
  descending ws ->
  forall t, In t ws -> t <= w -> (forall t', In t' ws -> t' <= w -> t' <= t) ->
  first_width_at_most d w ws = dict_getitem d t.
Proof.
  induction 1 as [|x ws Hs IH Hall]; intros t Hin Hle Hmax; [contradiction|].
  simpl. rewrite Z.geb_leb.
  destruct (Z.leb_spec x w) as [Hx|Hx].
  - assert (x <= t) by (apply Hmax; simpl; auto).
    destruct Hin as [->|Hin]; [reflexivity|].
    rewrite Forall_forall in Hall. specialize (Hall t Hin).
    replace t with x by lia. reflexivity.
  - destruct Hin as [->|Hin]; [lia|].
    apply IH; auto. intros t' Ht'. apply Hmax. simpl; auto.
Qed.

Lemma first_width_at_most_none (d : list (Z * Z)) (w : Z) (ws : list Z) :
  (forall t, In t ws -> w < t) -> first_width_at_most d w ws = Return 1.
Proof.
  induction ws as [|x ws IH]; intros Hall; [reflexivity|].
  simpl. rewrite Z.geb_leb.
  destruct (Z.leb_spec x w) as [Hx|Hx].
  - specialize (Hall x (or_introl eq_refl)). lia.
  - apply IH. intros t Ht. apply Hall. simpl; auto.
Qed.

(** [d[k]] is the value of the first entry of key [k]. *)
Lemma dict_getitem_In (d : list (Z * Z)) (k v : Z) :
  NoDup (dict_keys d) -> In (k, v) d -> dict_getitem d k = Return v.
Proof.
  induction d as [|[k' v'] d IH]; simpl; intros Hnd Hin; [contradiction|].
  inversion Hnd as [|? ? Hnotin Hnd']; subst.
  destruct Hin as [Heq|Hin].
  - inversion Heq; subst. rewrite Z.eqb_refl. reflexivity.
  - destruct (Z.eqb_spec k' k) as [->|Hne].
    + exfalso. apply Hnotin. unfold dict_keys. apply in_map_iff.
      exists (k, v). auto.
    + apply IH; assumption.
Qed.

End SortedKeys.

Lemma DEFAULT_DOWNSCALE_FACTORS_NoDup : NoDup (dict_keys DEFAULT_DOWNSCALE_FACTORS).
Proof.
  unfold DEFAULT_DOWNSCALE_FACTORS, dict_keys; simpl.
  repeat (constructor; [simpl; intuition lia|]). constructor.
Qed.

Lemma compute_downscale_factor_cases (w : Z) :
  compute_downscale_factor w =
  Return (if 3200 <=? w then 12 else if 2100 <=? w then 8 else if 1700 <=? w then 6
          else if 1200 <=? w then 5 else if 900 <=? w then 4 else if 600 <=? w then 3
          else if 400 <=? w then 2 else 1).
Proof.
  unfold compute_downscale_factor.
  change (sorted_reverse (dict_keys DEFAULT_DOWNSCALE_FACTORS))
    with [3200; 2100; 1700; 1200; 900; 600; 400].
  cbn [first_width_at_most]. rewrite !Z.geb_leb.
  repeat match goal with |- context [?a <=? w] => destruct (a <=? w) end; reflexivity.
Qed.

(** C8: [compute_downscale_factor w] is the factor paired with the largest
    threshold of the table that does not exceed [w] (there is one as soon as
    [w] is at least 400), it is exactly 1 when [w] is below 400, and a
    narrower frame never gets a larger factor. *)
Theorem compute_downscale_factor_largest_threshold (w : Z) :
  (forall t f, largest_threshold_at_most w t f -> compute_downscale_factor w = Return f) /\
  (400 <= w -> exists t f, largest_threshold_at_most w t f) /\
  (w < 400 -> compute_downscale_factor w = Return 1) /\
  (forall w', w' <= w ->
     exists f' f, compute_downscale_factor w' = Return f' /\
                  compute_downscale_factor w = Return f /\ f' <= f).
Proof.
  split; [|split; [|split]].
  - intros t f (Hin & Hle & Hmax).
    unfold compute_downscale_factor.
    rewrite (first_width_at_most_largest _ w _ (sorted_reverse_descending _) t).
    + apply dict_getitem_In; [apply DEFAULT_DOWNSCALE_FACTORS_NoDup|assumption].
    + apply sorted_reverse_In. unfold dict_keys. apply in_map_iff. exists (t, f). auto.
    + assumption.
    + intros t' Ht' Hle'. apply -> sorted_reverse_In in Ht'. unfold dict_keys in Ht'.
      apply in_map_iff in Ht'. destruct Ht' as [[t'' f'] [Heq Hin']]. simpl in Heq. subst.
      eapply Hmax; eauto.
  - intros Hw. unfold largest_threshold_at_most, DEFAULT_DOWNSCALE_FACTORS.
    destruct (Z_lt_le_dec w 600); [exists 400, 2|
    destruct (Z_lt_le_dec w 900); [exists 600, 3|
    destruct (Z_lt_le_dec w 1200); [exists 900, 4|
    destruct (Z_lt_le_dec w 1700); [exists 1200, 5|
    destruct (Z_lt_le_dec w 2100); [exists 1700, 6|
    destruct (Z_lt_le_dec w 3200); [exists 2100, 8|exists 3200, 12]]]]]];
    (split; [simpl; tauto|split; [lia|]]);
    intros t' f' Hin ?; simpl in Hin;
    repeat (destruct Hin as [Heq|Hin]; [inversion Heq; subst; lia|]); contradiction.
  - intros Hw. unfold compute_downscale_factor. apply first_width_at_most_none.
    intros t Ht. apply -> sorted_reverse_In in Ht. simpl in Ht. lia.
  - intros w' Hle. rewrite !compute_downscale_factor_cases.
    eexists _, _. split; [reflexivity|split; [reflexivity|]].
    repeat match goal with |- context [?a <=? ?b] => destruct (Z.leb_spec a b) end; lia.
Qed.

Lemma compute_downscale_factor_largest_threshold_witness :
  compute_downscale_factor 1920 = Return 6 /\ compute_downscale_factor 399 = Return 1.
Proof.
  destruct (compute_downscale_factor_largest_threshold 1920) as [Hlargest _].
  destruct (compute_downscale_factor_largest_threshold 399) as (_ & _ & Hbelow & _).
  split.
  - apply (Hlargest 1700 6). unfold largest_threshold_at_most. simpl.
    split; [tauto|split; [lia|]].
    intros t' f' Hin Hle.
    repeat (destruct Hin as [Heq|Hin]; [inversion Heq; subst; lia|]). contradiction.
  - apply Hbelow. lia.
Defined.

(** * Facts about the downscale setter *)

Lemma Qltb_true (x y : Q) : Qltb x y = true <-> (x < y)%Q.
Proof.
  unfold Qltb. rewrite negb_true_iff, <- not_true_iff_false, Qle_bool_iff.
  split; [apply Qnot_le_lt|apply Qlt_not_le].
Qed.

Lemma Qltb_false (x y : Q) : Qltb x y = false <-> (y <= x)%Q.
Proof.
  unfold Qltb. rewrite negb_false_iff. apply Qle_bool_iff.
Qed.

Lemma math_trunc_inject_Z (z : Z) : math_trunc (inject_Z z) = z.
Proof. unfold math_trunc; simpl. apply Z.quot_1_r. Qed.

(** Truncation cannot take a float that is at least 1 below 1. *)
Lemma math_trunc_ge_1 (q : Q) : (1 <= q)%Q -> 1 <= math_trunc q.
Proof.
  unfold Qle, math_trunc; simpl. intros H.
  apply Z.quot_le_lower_bound; lia.
Qed.

Lemma downscale_setter_stores_int (v : pyval) (self self' : VideoStream) :
  snd (downscale_setter v self) = Return self' ->
  exists z, _downscale self' = PyInt z /\ 1 <= z.
Proof.
  unfold downscale_setter.
  destruct v as [|z|[q| |negative]]; simpl.
  - discriminate.
  - destruct (Z.ltb_spec z 1) as [Hz|Hz]; simpl; intros H; [discriminate|].
    injection H; intros <-. exists z. split; [reflexivity|assumption].
  - change (inject_Z 1) with 1%Q.
    destruct (Qltb q 1) eqn:Hq; simpl; intros H; [discriminate|].
    injection H; intros <-. exists (math_trunc q). split; [reflexivity|].
    apply math_trunc_ge_1, Qltb_false, Hq.
  - discriminate.
  - destruct negative; discriminate.
Qed.

(** The invariant of the object: whatever is assigned, in whatever order,
    [_downscale] stays an [int] that is at least 1. *)
Lemma assign_downscales_invariant (vs : list pyval) (self : VideoStream) :
  (exists z, _downscale self = PyInt z /\ 1 <= z) ->
  exists z, _downscale (assign_downscales vs self) = PyInt z /\ 1 <= z.
Proof.
  revert self. induction vs as [|v vs IH]; intros self Hinv; simpl; [assumption|].
  destruct (snd (downscale_setter v self)) as [self'|e] eqn:Hset.
  - apply IH. eapply downscale_setter_stores_int; eassumption.
  - apply IH, Hinv.
Qed.




(** * Facts about the adapter, for any decoder *)

Section AdapterFacts.

Context {cap ndarray : Type} {VC : VideoCapture cap ndarray}.

Variable MINIMUM_FRAMES_PER_SECOND_FLOAT : Q.
Variable os_path_exists : string -> bool.
Variable round_frames : Q -> Z.

Implicit Types (self : VideoStreamCv2 cap) (target : seek_target).

(** A target of the documented kinds passes both argument checks and is not
    the integer 0. *)
Lemma valid_target_passes target :
  valid_target target ->
  int_not_positive target = false /\ float_negative target = false /\
  int_zero target = false.
Proof.
  destruct target as [t|s|n]; simpl; intros H; repeat split; try reflexivity.
  - apply Qltb_false, H.
  - apply negb_false_iff. apply Z.gtb_lt. lia.
  - apply Z.eqb_neq. lia.
Qed.

(** What the general path of [seek] does, field by field. *)
Lemma seek_general_path target self :
  _is_device self = false -> valid_target target ->
  seek round_frames target self =
  Return {| super := super self;
            _path_or_device := _path_or_device self;
            _is_device := _is_device self;
            _cap := grab (cap_set (_cap self) CAP_PROP_POS_FRAMES
                            (inject_Z (target_frame_cv2 round_frames self target)));
            _frame_rate := _frame_rate self;
            _has_seeked := _has_seeked self;
            _has_grabbed := true |}.
Proof.
  intros Hdev Hvalid.
  destruct (valid_target_passes target Hvalid) as (Hint & Hfloat & Hzero).
  destruct self as [base source dev c rate seeked grabbed]; simpl in Hdev; subst dev.
  unfold seek; simpl. rewrite Hint, Hfloat, Hzero. reflexivity.
Qed.

(** No path of [seek] writes [_has_seeked]. *)
Lemma seek_keeps_has_seeked target self self' :
  seek round_frames target self = Return self' ->
  _has_seeked self' = _has_seeked self.
Proof.
  unfold seek.
  destruct (_is_device self); [discriminate|].
  destruct (int_not_positive target); [discriminate|].
  destruct (float_negative target); [discriminate|].
  destruct (int_zero target); intros H; injection H; intros <-; reflexivity.
Qed.

(** The frame index handed to the decoder for a one-based frame number. *)
Lemma target_frame_cv2_int (n : Z) self :
  target_frame_cv2 round_frames self (TargetInt n) = n - 1.
Proof. reflexivity. Qed.

(** C2: on an adapter that is not a device, [seek(0)] is rejected by the check
    of the frame number, before the branch written for the integer 0: the
    decoder is not repositioned and [_has_grabbed] is not cleared. *)
Theorem seek_zero_is_rejected self :
  _is_device self = false ->
  seek round_frames (TargetInt 0) self = Raise seek_frame_error.
Proof.
  intros Hdev. unfold seek. rewrite Hdev. reflexivity.
Qed.

(** C3: on a seekable adapter and for a valid non-zero target, [seek] sets the
    decoder to the computed frame index, grabs once and sets [_has_grabbed];
    it leaves [_has_seeked] as it found it, so an adapter that had not seeked
    is left POSITIONED and not SEEK_PENDING. *)
Theorem seek_grabs_once_and_keeps_has_seeked target self :
  _is_device self = false -> valid_target target ->
  exists self',
    seek round_frames target self = Return self' /\
    _cap self' = grab (cap_set (_cap self) CAP_PROP_POS_FRAMES
                         (inject_Z (target_frame_cv2 round_frames self target))) /\
    _has_grabbed self' = true /\
    _has_seeked self' = _has_seeked self /\
    (_has_seeked self = false -> state_of self' = POSITIONED).
Proof.
  intros Hdev Hvalid. eexists. split; [apply seek_general_path; assumption|].
  simpl. repeat split. intros Hns. unfold state_of; simpl. rewrite Hns. reflexivity.
Qed.

(** C9: on a device-backed adapter [seek] raises the seek error whatever the
    target, an invalid one included: neither argument check is reached. *)
Theorem seek_on_device_raises_seek_error target self :
  _is_device self = true ->
  is_seekable self = false /\
  seek round_frames target self = Raise seek_device_error /\
  seek round_frames target self <> Raise seek_frame_error /\
  seek round_frames target self <> Raise seek_time_error.
Proof.
  intros Hdev. unfold is_seekable, seek. rewrite Hdev.
  repeat split; discriminate.
Qed.

(** C7: [position] is [base_timecode] while [frame_number] is below 1, and
    [base_timecode + (frame_number - 1)] from 1 on, which is the timecode of
    frame [frame_number - 1] at the frame rate of the stream. *)
Theorem position_shifts_frame_number self :
  (frame_number self < 1 -> position round_frames self = base_timecode self) /\
  (1 <= frame_number self ->
     position round_frames self =
       timecode_add round_frames (base_timecode self) (TargetInt (frame_number self - 1)) /\
     get_frames (position round_frames self) = frame_number self - 1 /\
     framerate (position round_frames self) = frame_rate self).
Proof.
  unfold position. split; intros H.
  - apply Z.ltb_lt in H. rewrite H. reflexivity.
  - apply Z.ltb_ge in H. rewrite H. repeat split.
Qed.

(** C6: [read] for every combination of its flags.  A closed decoder gives no
    frame and changes nothing.  On an open one, [advance] grabs once, sets
    [_has_grabbed] and clears [_has_seeked]; then [decode] retrieves and
    returns the frame when a frame has been grabbed; otherwise no frame is
    returned. *)
Theorem read_by_flags self :
  (isOpened (_cap self) = false ->
     forall decode advance, read decode advance self = (None, self)) /\
  (isOpened (_cap self) = true ->
     let grabbed :=
       {| super := super self;
          _path_or_device := _path_or_device self;
          _is_device := _is_device self;
          _cap := grab (_cap self);
          _frame_rate := _frame_rate self;
          _has_seeked := false;
          _has_grabbed := true |} in
     read true true self =
       (snd (snd (retrieve (grab (_cap self)))),
        with_cap (fst (retrieve (grab (_cap self)))) grabbed) /\
     read false true self = (None, grabbed) /\
     (_has_grabbed self = true ->
        read true false self =
          (snd (snd (retrieve (_cap self))),
           with_cap (fst (retrieve (_cap self))) self)) /\
     (_has_grabbed self = false -> read true false self = (None, self)) /\
     read false false self = (None, self)).
Proof.
  split.
  - intros Hclosed decode advance. unfold read. rewrite Hclosed. reflexivity.
  - intros Hopen grabbed. unfold read. rewrite Hopen. simpl.
    repeat split.
    + destruct (retrieve (grab (_cap self))) as [c [ok frame]]. reflexivity.
    + intros Hg. rewrite Hg.
      destruct (retrieve (_cap self)) as [c [ok frame]]. reflexivity.
    + intros Hg. rewrite Hg. reflexivity.
Qed.

(** C4, as amended: on a decoder that counts frames, [seek(k)] for a frame
    number [k >= 1] before the last frame leaves [frame_number] equal to [k],
    and one read with [advance=True] then moves it on to [k + 1]. *)
Theorem seek_then_read_frame_number (k : Z) (decode : bool) self :
  counts_frames cap ->
  _is_device self = false ->
  isOpened (_cap self) = true ->
  1 <= k < frame_count (_cap self) ->
  exists self',
    seek round_frames (TargetInt k) self = Return self' /\
    frame_number self' = k /\
    frame_number (snd (read decode true self')) = k + 1.
Proof.
  intros Laws Hdev Hopen Hk.
  eexists. split; [apply seek_general_path; [assumption|simpl; lia]|].
  rewrite target_frame_cv2_int.
  set (c1 := cap_set (_cap self) CAP_PROP_POS_FRAMES (inject_Z (k - 1))).
  destruct (set_keeps Laws (_cap self) (inject_Z (k - 1))) as [Hopen1 Hcount1].
  fold c1 in Hopen1, Hcount1.
  assert (Hpos1 : pos_frames c1 = k - 1) by (apply (set_positions Laws); lia).
  destruct (grab_keeps Laws c1) as [Hopen2 Hcount2].
  assert (Hpos2 : pos_frames (grab c1) = k).
  { rewrite (grab_advances Laws); [lia|congruence|lia]. }
  split; [exact Hpos2|].
  unfold read; simpl. rewrite Hopen2, Hopen1, Hopen. simpl.
  assert (Hpos3 : pos_frames (grab (grab c1)) = k + 1).
  { rewrite (grab_advances Laws); [lia|congruence|lia]. }
  destruct decode; simpl.
  - destruct (retrieve (grab (grab c1))) as [c [ok frame]] eqn:Hret.
    unfold frame_number; simpl.
    change c with (fst (c, (ok, frame))). rewrite <- Hret.
    rewrite <- Hpos3. apply (retrieve_keeps Laws).
  - exact Hpos3.
Qed.

(** C5, as amended: once the source has passed the checks on it and the
    decoder has opened, an override that is not zero is the frame rate of the
    adapter; with no override, or with the override 0, the rate the decoder
    reports is used, and opening fails with the open failure exactly when
    that rate is strictly below the minimum. *)
Theorem open_resolves_frame_rate (source : path_or_device) (override : option Q) :
  negative_device source = false ->
  file_not_found os_path_exists source = false ->
  isOpened (cv2_VideoCapture source) = true ->
  let reported := cap_get (cv2_VideoCapture source) CAP_PROP_FPS in
  let opening :=
    snd (__init__ MINIMUM_FRAMES_PER_SECOND_FLOAT os_path_exists source override) in
  (forall r, override = Some r -> ~ r == 0 ->
     exists self, opening = Return self /\ frame_rate self = r) /\
  (override = None \/ (exists r, override = Some r /\ r == 0) ->
     ((reported < MINIMUM_FRAMES_PER_SECOND_FLOAT)%Q ->
        opening = Raise open_failure_framerate) /\
     ((MINIMUM_FRAMES_PER_SECOND_FLOAT <= reported)%Q ->
        exists self, opening = Return self /\ frame_rate self = reported)).
Proof.
  intros Hdev Hfile Hopen reported opening.
  unfold opening, __init__, _open_capture. rewrite Hdev, Hfile, Hopen. simpl.
  fold reported. split.
  - intros r -> Hr.
    destruct (Qeq_bool r 0) eqn:Hz; [apply Qeq_bool_iff in Hz; contradiction|].
    simpl. eexists. split; reflexivity.
  - intros Hnone.
    assert (Hq : forall X (queried : X) (given : Q -> X),
               match override with
               | None => queried
               | Some r => if Qeq_bool r 0 then queried else given r
               end = queried).
    { intros X queried given. destruct Hnone as [->|(r & -> & Hr)]; [reflexivity|].
      apply Qeq_bool_iff in Hr. rewrite Hr. reflexivity. }
    rewrite Hq. split; intros Hcmp.
    + apply Qltb_true in Hcmp. rewrite Hcmp. reflexivity.
    + apply Qltb_false in Hcmp. rewrite Hcmp. simpl. eexists. split; reflexivity.
Qed.

(** ** The flag [_has_seeked] along the life of an adapter *)

Lemma read_keeps_not_seeked (decode advance : bool) self :
  _has_seeked self = false -> _has_seeked (snd (read decode advance self)) = false.
Proof.
  intros Hns. unfold read.
  destruct (isOpened (_cap self)); simpl; [|assumption].
  destruct advance; simpl.
  - destruct decode; simpl; [|reflexivity].
    destruct (retrieve (grab (_cap self))) as [c [ok frame]]. reflexivity.
  - destruct (decode && _has_grabbed self); simpl; [|assumption].
    destruct (retrieve (_cap self)) as [c [ok frame]]. assumption.
Qed.

Lemma step_keeps_not_seeked (c : call) self :
  _has_seeked self = false -> _has_seeked (step round_frames self c) = false.
Proof.
  intros Hns. destruct c as [target|decode advance]; simpl.
  - destruct (seek round_frames target self) as [self'|e] eqn:Hseek; [|assumption].
    rewrite (seek_keeps_has_seeked _ _ _ Hseek). assumption.
  - apply read_keeps_not_seeked, Hns.
Qed.

Lemma run_keeps_not_seeked (calls : list call) self :
  _has_seeked self = false -> _has_seeked (run round_frames calls self) = false.
Proof.
  revert self. unfold run.
  induction calls as [|c calls IH]; intros self Hns; simpl; [assumption|].
  apply IH, step_keeps_not_seeked, Hns.
Qed.

Lemma init_not_seeked (source : path_or_device) (override : option Q) self :
  snd (__init__ MINIMUM_FRAMES_PER_SECOND_FLOAT os_path_exists source override)
    = Return self ->
  _has_seeked self = false.
Proof.
  unfold __init__.
  destruct (_open_capture _ _ source override) as [log [[c rate]|e]]; simpl.
  - intros H; injection H; intros <-. reflexivity.
  - discriminate.
Qed.

(** The flag is never set, so [position_ms] answers after every sequence of
    calls on an adapter that was opened. *)
Lemma position_ms_never_raises (source : path_or_device) (override : option Q)
      (calls : list call) self :
  snd (__init__ MINIMUM_FRAMES_PER_SECOND_FLOAT os_path_exists source override)
    = Return self ->
  position_ms (run round_frames calls self) =
  Return (cap_get (_cap (run round_frames calls self)) CAP_PROP_POS_MSEC).
Proof.
  intros Hinit. unfold position_ms.
  rewrite (run_keeps_not_seeked calls self (init_not_seeked _ _ _ Hinit)).
  reflexivity.
Qed.

End AdapterFacts.

(** * The adapter on the simulated decoder *)

Lemma sim_counts_frames : counts_frames Sim.clip.
Proof.
  constructor; unfold pos_frames, frame_count; simpl.
  - intros c n. rewrite !math_trunc_inject_Z. lia.
  - intros c v. split; reflexivity.
  - intros c. rewrite !math_trunc_inject_Z. intros Hopen Hlt.
    unfold Sim.clip_grab. rewrite Hopen.
    apply Z.ltb_lt in Hlt. rewrite Hlt. reflexivity.
  - intros c. unfold Sim.clip_grab.
    destruct (Sim.clip_opened c && (Sim.clip_pos c <? Sim.clip_frames c));
      split; reflexivity.
  - intros c. unfold Sim.clip_retrieve.
    destruct (Sim.clip_opened c && (1 <=? Sim.clip_pos c)
              && (Sim.clip_pos c <=? Sim.clip_frames c)); reflexivity.
Qed.

Lemma sim_init_file : Sim.init (Path "clip.mp4") None = ([], Return Sim.file_stream).
Proof. reflexivity. Qed.

Lemma sim_init_camera : Sim.init (Device 0) None = ([], Return Sim.camera_stream).
Proof. reflexivity. Qed.

(** C1: on the adapter opened on the clip, [position_ms] queried right after
    [seek(5)], before any read, does not raise: [seek] left [_has_seeked]
    false and the decoder's time is returned, as it is after a read with
    [advance=True]. *)
Theorem position_ms_after_seek_returns :
  exists self',
    Sim.init (Path "clip.mp4") None = ([], Return Sim.file_stream) /\
    Sim.seek_trunc (TargetInt 5) Sim.file_stream = Return self' /\
    _has_seeked self' = false /\
    position_ms self' = Return (cap_get (_cap self') CAP_PROP_POS_MSEC) /\
    position_ms self' <> Raise position_ms_error /\
    position_ms (snd (read true true self')) =
      Return (cap_get (_cap (snd (read true true self'))) CAP_PROP_POS_MSEC).
Proof.
  eexists. split; [reflexivity|]. split; [reflexivity|].
  split; [reflexivity|]. split; [reflexivity|].
  split; [discriminate|reflexivity].
Qed.

Lemma seek_zero_is_rejected_witness :
  _is_device Sim.file_stream = false /\
  seek math_trunc (TargetInt 0) Sim.file_stream = Raise seek_frame_error.
Proof.
  split; [reflexivity|].
  apply (seek_zero_is_rejected math_trunc Sim.file_stream). reflexivity.
Defined.

Lemma seek_grabs_once_and_keeps_has_seeked_witness :
  exists self',
    seek math_trunc (TargetInt 5) Sim.file_stream = Return self' /\
    frame_number self' = 5 /\
    _has_grabbed self' = true /\
    _has_seeked self' = false /\
    state_of self' = POSITIONED.
Proof.
  destruct (seek_grabs_once_and_keeps_has_seeked math_trunc (TargetInt 5) Sim.file_stream)
    as (self' & Hseek & Hcap & Hgrabbed & Hseeked & Hstate).
  - reflexivity.
  - simpl. lia.
  - exists self'. split; [exact Hseek|].
    split; [unfold frame_number; rewrite Hcap; reflexivity|].
    split; [exact Hgrabbed|].
    split; [rewrite Hseeked; reflexivity|].
    apply Hstate. reflexivity.
Defined.

Lemma seek_then_read_frame_number_witness :
  exists self',
    seek math_trunc (TargetInt 5) Sim.file_stream = Return self' /\
    frame_number self' = 5 /\
    frame_number (snd (read true true self')) = 6.
Proof.
  apply (seek_then_read_frame_number math_trunc 5 true Sim.file_stream).
  - exact sim_counts_frames.
  - reflexivity.
  - reflexivity.
  - vm_compute. split; [discriminate|reflexivity].
Defined.

(** C4 as the claim states it fails on the clip: the decoder counts frames,
    frame 5 is within the 100 frames of the stream, and [seek(5)] followed by
    one read with [advance=True] leaves [frame_number] at 6. *)
Lemma seek_then_read_frame_number_counterexample :
  exists self',
    counts_frames Sim.clip /\
    is_seekable Sim.file_stream = true /\
    1 <= 5 <= frame_count (_cap Sim.file_stream) /\
    seek math_trunc (TargetInt 5) Sim.file_stream = Return self' /\
    frame_number (snd (read true true self')) = 6 /\
    frame_number (snd (read true true self')) <> 5.
Proof.
  eexists. split; [exact sim_counts_frames|].
  split; [reflexivity|].
  split; [vm_compute; split; discriminate|].
  split; [reflexivity|].
  split; [reflexivity|]. vm_compute. discriminate.
Qed.

Lemma open_resolves_frame_rate_witness :
  (exists self,
     snd (Sim.init (Path "clip.mp4") (Some (25 # 1))) = Return self /\
     frame_rate self = 25 # 1) /\
  snd (Sim.init (Path "still.mp4") None) = Raise open_failure_framerate.
Proof.
  split.
  - destruct (open_resolves_frame_rate Sim.MINIMUM_FRAMES_PER_SECOND_FLOAT
                Sim.os_path_exists (Path "clip.mp4") (Some (25 # 1)))
      as [Hoverride _]; [reflexivity|reflexivity|reflexivity|].
    apply (Hoverride (25 # 1)); [reflexivity|].
    unfold Qeq; simpl. lia.
  - destruct (open_resolves_frame_rate Sim.MINIMUM_FRAMES_PER_SECOND_FLOAT
                Sim.os_path_exists (Path "still.mp4") None)
      as [_ Hqueried]; [reflexivity|reflexivity|reflexivity|].
    destruct Hqueried as [Hbelow _]; [left; reflexivity|].
    apply Hbelow. unfold Qlt; simpl. lia.
Defined.

(** C5 as the claim states it fails twice on the simulated machine: a file
    whose reported rate is exactly the minimum opens, at that rate; and the
    override 0 is not used, the reported rate is. *)
Lemma open_resolves_frame_rate_counterexample :
  (cap_get (cv2_VideoCapture (Path "slow.mp4")) CAP_PROP_FPS
     <= Sim.MINIMUM_FRAMES_PER_SECOND_FLOAT)%Q /\
  (exists self,
     Sim.init (Path "slow.mp4") None = ([], Return self) /\
     frame_rate self = Sim.MINIMUM_FRAMES_PER_SECOND_FLOAT) /\
  (exists self,
     Sim.init (Path "clip.mp4") (Some 0%Q) = ([], Return self) /\
     frame_rate self = 24%Q /\ ~ frame_rate self == 0).
Proof.
  split; [unfold Qle; simpl; lia|].
  split.
  - eexists. split; reflexivity.
  - eexists. split; [reflexivity|]. split; [reflexivity|].
    unfold Qeq; simpl. lia.
Qed.

Lemma read_by_flags_witness :
  isOpened (_cap Sim.file_stream) = true /\
  fst (read true true Sim.file_stream) = Some 1 /\
  _has_grabbed (snd (read true true Sim.file_stream)) = true /\
  read true false Sim.file_stream = (None, Sim.file_stream).
Proof.
  destruct (read_by_flags Sim.file_stream) as [_ Hopen].
  destruct Hopen as (Hboth & _ & _ & Hnothing & _); [reflexivity|].
  split; [reflexivity|].
  split; [rewrite Hboth; reflexivity|].
  split; [rewrite Hboth; reflexivity|].
  apply Hnothing. reflexivity.
Defined.

Lemma position_shifts_frame_number_witness :
  position math_trunc Sim.file_stream = base_timecode Sim.file_stream /\
  get_frames (position math_trunc (snd (read true true Sim.file_stream))) = 0.
Proof.
  split.
  - destruct (position_shifts_frame_number math_trunc Sim.file_stream) as [Hbefore _].
    apply Hbefore. vm_compute. reflexivity.
  - destruct (position_shifts_frame_number math_trunc
                (snd (read true true Sim.file_stream))) as [_ Hfrom].
    destruct Hfrom as (_ & Hframes & _); [vm_compute; discriminate|].
    rewrite Hframes. reflexivity.
Defined.

Lemma seek_on_device_raises_seek_error_witness :
  _is_device Sim.camera_stream = true /\
  seek math_trunc (TargetInt (-1)) Sim.camera_stream = Raise seek_device_error /\
  seek math_trunc (TargetFloat (-1 # 2)) Sim.camera_stream = Raise seek_device_error.
Proof.
  split; [reflexivity|]. split.
  - apply (seek_on_device_raises_seek_error math_trunc (TargetInt (-1)) Sim.camera_stream).
    reflexivity.
  - apply (seek_on_device_raises_seek_error math_trunc (TargetFloat (-1 # 2))
             Sim.camera_stream).
    reflexivity.
Defined.

(** * Further facts about the downscale policy and setter *)

Lemma compute_downscale_factor_range (w : Z) :
  exists f,
    compute_downscale_factor w = Return f /\
    1 <= f <= 12 /\
    (400 <= w -> 200 * f <= w) /\
    (w < 400 -> f = 1).
Proof.
  rewrite compute_downscale_factor_cases. eexists. split; [reflexivity|].
  repeat match goal with |- context [?a <=? w] => destruct (Z.leb_spec a w) end;
    repeat split; lia.
Qed.

(** The default factor is never missing from the table, lies between 1 and
    12, and leaves a frame that is at least 400 wide at least 200 wide. *)
Theorem compute_downscale_factor_keeps_200 (w : Z) :
  exists f,
    compute_downscale_factor w = Return f /\
    1 <= f <= 12 /\
    (400 <= w -> 200 * f <= w) /\
    (w < 400 -> f = 1).
Proof. exact (compute_downscale_factor_range w). Qed.

Lemma compute_downscale_factor_keeps_200_witness :
  exists f, compute_downscale_factor 1920 = Return f /\ 200 * f <= 1920.
Proof.
  destruct (compute_downscale_factor_keeps_200 1920) as (f & Hf & _ & Hwide & _).
  exists f. split; [exact Hf|]. apply Hwide. lia.
Defined.

(** The setter accepts exactly the finite numbers that are at least 1: it
    stores the truncation of such a number, warns exactly when it is not an
    [int], and raises the invalid-argument error on every number below 1.
    What denotes no number is never stored: [None] raises, NaN and plus
    infinity raise from [int()] after the warning, and minus infinity raises
    the invalid-argument error. *)
Theorem downscale_setter_accepts_from_1 (v : pyval) (self : VideoStream) :
  (forall q, py_value v = Some q ->
     ((1 <= q)%Q ->
        downscale_setter v self =
          (if isinstance_int v then [] else [downscale_warning],
           Return {| _downscale := PyInt (math_trunc q) |})) /\
     ((q < 1)%Q -> downscale_setter v self = ([], Raise downscale_error))) /\
  (py_value v = None -> exists log e, downscale_setter v self = (log, Raise e)) /\
  downscale_setter (PyFloat NaN) self =
    ([downscale_warning], Raise int_of_nan_error) /\
  downscale_setter (PyFloat (Infinity false)) self =
    ([downscale_warning], Raise int_of_infinity_error) /\
  downscale_setter (PyFloat (Infinity true)) self = ([], Raise downscale_error).
Proof.
  split; [|split; [|repeat split]].
  - intros q Hv. unfold downscale_setter.
    destruct v as [|z|[q'| |negative]]; simpl in *; try discriminate;
      injection Hv as <-.
    + split; intros H.
      * assert (Hz : 1 <= z) by (unfold Qle in H; simpl in H; lia).
        apply Z.ltb_ge in Hz. rewrite Hz, math_trunc_inject_Z. reflexivity.
      * assert (Hz : z < 1) by (unfold Qlt in H; simpl in H; lia).
        apply Z.ltb_lt in Hz. rewrite Hz. reflexivity.
    + change (inject_Z 1) with 1%Q. split; intros H.
      * apply Qltb_false in H. rewrite H. reflexivity.
      * apply Qltb_true in H. rewrite H. reflexivity.
  - unfold downscale_setter.
    destruct v as [|z|[q'| |negative]]; simpl; try discriminate; intros _.
    + eexists _, _. reflexivity.
    + eexists _, _. reflexivity.
    + destruct negative; eexists _, _; reflexivity.
Qed.

Lemma downscale_setter_accepts_from_1_witness :
  downscale_setter (PyInt 3) VideoStream_init = ([], Return {| _downscale := PyInt 3 |}) /\
  downscale_setter (PyInt (-3)) VideoStream_init = ([], Raise downscale_error) /\
  exists log e, downscale_setter PyNone VideoStream_init = (log, Raise e).
Proof.
  split; [|split].
  - destruct (downscale_setter_accepts_from_1 (PyInt 3) VideoStream_init)
      as [Hnumber _].
    destruct (Hnumber (inject_Z 3)) as [Haccept _]; [reflexivity|].
    apply Haccept. unfold Qle; simpl; lia.
  - destruct (downscale_setter_accepts_from_1 (PyInt (-3)) VideoStream_init)
      as [Hnumber _].
    destruct (Hnumber (inject_Z (-3))) as [_ Hreject]; [reflexivity|].
    apply Hreject. unfold Qlt; simpl; lia.
  - destruct (downscale_setter_accepts_from_1 PyNone VideoStream_init)
      as (_ & Hnone & _).
    apply Hnone. reflexivity.
Defined.

(** * Further facts about the adapter, for any decoder *)

Lemma prefix_append (sub post : string) : String.prefix sub (sub ++ post)%string = true.
Proof.
  induction sub as [|a sub IH]; simpl; [destruct post; reflexivity|].
  destruct (Ascii.ascii_dec a a) as [_|Hne]; [exact IH|contradiction Hne; reflexivity].
Qed.

Lemma str_contains_unfold (sub s : string) :
  str_contains sub s =
  String.prefix sub s ||
  match s with
  | EmptyString => false
  | String _ rest => str_contains sub rest
  end.
Proof. destruct s; reflexivity. Qed.

(** [sub in s] holds of every string that has [sub] somewhere inside. *)
Lemma str_contains_append (sub pre post : string) :
  str_contains sub (pre ++ sub ++ post)%string = true.
Proof.
  induction pre as [|a pre IH].
  - simpl. rewrite str_contains_unfold, prefix_append. reflexivity.
  - simpl. rewrite IH. apply orb_true_r.
Qed.

Section RestFacts.

Context {cap ndarray : Type} {VC : VideoCapture cap ndarray}.

Variable MINIMUM_FRAMES_PER_SECOND_FLOAT : Q.
Variable os_path_exists : string -> bool.
Variable release : cap -> cap.
Variable round_frames : Q -> Z.

Implicit Types (self : VideoStreamCv2 cap) (target : seek_target).

(** ** Opening *)

(** A negative device index is rejected with [ValueError] whatever the
    override, before the decoder is created and with nothing logged. *)
Theorem init_rejects_negative_device (index : Z) (override : option Q) :
  index < 0 ->
  __init__ MINIMUM_FRAMES_PER_SECOND_FLOAT os_path_exists (Device index) override =
  ([], Raise (ValueError "Invalid/negative device ID specified.")).
Proof.
  intros Hneg. unfold __init__, _open_capture; simpl.
  apply Z.ltb_lt in Hneg. rewrite Hneg. reflexivity.
Qed.

(** A path with neither [%] nor [://] in it that does not exist is rejected
    with [IOError]; for a path with [://] or [%] somewhere in it the file
    system is not consulted: opening goes the same way as if every path
    existed. *)
Theorem init_checks_local_paths_only (p : string) (override : option Q) :
  (str_contains "%" p = false -> str_contains "://" p = false ->
   os_path_exists p = false ->
   __init__ MINIMUM_FRAMES_PER_SECOND_FLOAT os_path_exists (Path p) override =
     ([], Raise (IOError "Video file not found."))) /\
  (forall pre post,
     p = (pre ++ "://" ++ post)%string \/ p = (pre ++ "%" ++ post)%string ->
     __init__ MINIMUM_FRAMES_PER_SECOND_FLOAT os_path_exists (Path p) override =
     __init__ MINIMUM_FRAMES_PER_SECOND_FLOAT (fun _ => true) (Path p) override).
Proof.
  split.
  - intros Hpct Hurl Hmissing. unfold __init__, _open_capture; simpl.
    rewrite Hpct, Hurl, Hmissing. reflexivity.
  - intros pre post Hp. unfold __init__, _open_capture; simpl.
    assert (Hin : str_contains "%" p || str_contains "://" p = true).
    { destruct Hp as [-> | ->]; rewrite str_contains_append;
        [apply orb_true_r|reflexivity]. }
    rewrite Hin. reflexivity.
Qed.

(** Opening succeeds exactly when the source passes both checks, the decoder
    opens, and either a non-zero override is given or the decoder reports a
    rate that is not below the minimum. *)
Theorem init_succeeds_iff (source : path_or_device) (override : option Q) :
  (exists self, snd (__init__ MINIMUM_FRAMES_PER_SECOND_FLOAT os_path_exists source override) = Return self) <->
  negative_device source = false /\
  file_not_found os_path_exists source = false /\
  isOpened (cv2_VideoCapture source) = true /\
  ((exists r, override = Some r /\ ~ r == 0) \/
   (MINIMUM_FRAMES_PER_SECOND_FLOAT
      <= cap_get (cv2_VideoCapture source) CAP_PROP_FPS)%Q).
Proof.
  unfold __init__, _open_capture.
  destruct (negative_device source); simpl.
  { split; [intros [self H]; discriminate|intros (H & _); discriminate]. }
  destruct (file_not_found os_path_exists source); simpl.
  { split; [intros [self H]; discriminate|intros (_ & H & _); discriminate]. }
  destruct (isOpened (cv2_VideoCapture source)); simpl.
  2:{ split; [intros [self H]; discriminate|intros (_ & _ & H & _); discriminate]. }
  set (reported := cap_get (cv2_VideoCapture source) CAP_PROP_FPS).
  destruct (Qltb reported MINIMUM_FRAMES_PER_SECOND_FLOAT) eqn:Hlow.
  - apply Qltb_true in Hlow.
    destruct override as [r|]; [destruct (Qeq_bool r 0) eqn:Hz|]; simpl.
    + apply Qeq_bool_iff in Hz.
      split; [intros [self H]; discriminate|].
      intros (_ & _ & _ & [(r' & Hr' & Hnz)|Hge]).
      * injection Hr' as <-. contradiction.
      * exfalso. apply (Qlt_not_le _ _ Hlow Hge).
    + split; [|intros _; eexists; reflexivity].
      intros _. repeat split. left. exists r. split; [reflexivity|].
      intros Hr. apply Qeq_bool_iff in Hr. congruence.
    + split; [intros [self H]; discriminate|].
      intros (_ & _ & _ & [(r' & Hr' & _)|Hge]); [discriminate|].
      exfalso. apply (Qlt_not_le _ _ Hlow Hge).
  - apply Qltb_false in Hlow.
    split; [intros _; repeat split; right; exact Hlow|intros _].
    destruct override as [r|]; [destruct (Qeq_bool r 0)|]; simpl; eexists; reflexivity.
Qed.

Lemma open_capture_returns (source : path_or_device) (override : option Q)
      (log : list log_record) (c : cap) (rate : Q) :
  _open_capture MINIMUM_FRAMES_PER_SECOND_FLOAT os_path_exists source override
    = (log, Return (c, rate)) ->
  c = cv2_VideoCapture source /\
  isOpened c = true /\
  (override = None -> (MINIMUM_FRAMES_PER_SECOND_FLOAT <= rate)%Q) /\
  ((0 < MINIMUM_FRAMES_PER_SECOND_FLOAT)%Q -> ~ rate == 0).
Proof.
  unfold _open_capture.
  destruct (negative_device source); [discriminate|].
  destruct (file_not_found os_path_exists source); [discriminate|].
  destruct (isOpened (cv2_VideoCapture source)) eqn:Hopen; simpl; [|discriminate].
  set (reported := cap_get (cv2_VideoCapture source) CAP_PROP_FPS).
  assert (Hqueried : forall l,
    (if Qltb reported MINIMUM_FRAMES_PER_SECOND_FLOAT
     then (l, Raise open_failure_framerate)
     else (l, Return (cv2_VideoCapture source, reported))) = (log, Return (c, rate)) ->
    c = cv2_VideoCapture source /\ isOpened c = true /\
    (MINIMUM_FRAMES_PER_SECOND_FLOAT <= rate)%Q).
  { intros l. destruct (Qltb reported _) eqn:Hlow; [discriminate|].
    intros H; injection H; intros <- <- _. apply Qltb_false in Hlow.
    repeat split; assumption. }
  assert (Hnz : (MINIMUM_FRAMES_PER_SECOND_FLOAT <= rate)%Q ->
                (0 < MINIMUM_FRAMES_PER_SECOND_FLOAT)%Q -> ~ rate == 0).
  { intros Hge Hpos Hz. rewrite Hz in Hge. apply (Qlt_not_le _ _ Hpos Hge). }
  destruct override as [r|]; [destruct (Qeq_bool r 0) eqn:Hz|].
  - intros H. destruct (Hqueried _ H) as (Hc & Ho & Hge). repeat split; auto.
  - intros H; injection H; intros <- <- _.
    repeat split; [exact Hopen|discriminate|].
    intros _ Hr. apply Qeq_bool_iff in Hr. congruence.
  - intros H. destruct (Hqueried _ H) as (Hc & Ho & Hge). repeat split; auto.
Qed.

(** What [__init__] leaves behind when it returns: the decoder it created,
    open; the adapter in its INITIAL state with downscale 1; a frame rate
    that is not below the minimum when no override was given, and that is
    not zero as soon as the minimum is positive. *)
Theorem init_establishes (source : path_or_device) (override : option Q) self :
  snd (__init__ MINIMUM_FRAMES_PER_SECOND_FLOAT os_path_exists source override)
    = Return self ->
  _cap self = cv2_VideoCapture source /\
  isOpened (_cap self) = true /\
  _path_or_device self = source /\
  _is_device self = is_int_device source /\
  state_of self = INITIAL /\
  downscale (super self) = PyInt 1 /\
  (override = None -> (MINIMUM_FRAMES_PER_SECOND_FLOAT <= frame_rate self)%Q) /\
  ((0 < MINIMUM_FRAMES_PER_SECOND_FLOAT)%Q -> ~ frame_rate self == 0).
Proof.
  unfold __init__.
  destruct (_open_capture _ _ source override) as [log [[c rate]|e]] eqn:Hopen;
    simpl; [|discriminate].
  intros H; injection H; intros <-. simpl.
  destruct (open_capture_returns _ _ _ _ _ Hopen) as (Hc & Ho & Hge & Hnz).
  repeat split; assumption.
Qed.

(** ** Seeking and reading *)

Lemma passes_valid_target target :
  int_not_positive target = false -> float_negative target = false ->
  valid_target target.
Proof.
  destruct target as [t|s|n]; simpl; intros Hint Hfloat.
  - exact I.
  - apply Qltb_false, Hfloat.
  - apply negb_false_iff, Z.gtb_lt in Hint. lia.
Qed.

Lemma seek_returns target self self' :
  seek round_frames target self = Return self' ->
  _is_device self = false /\ valid_target target.
Proof.
  unfold seek.
  destruct (_is_device self); [discriminate|].
  destruct (int_not_positive target) eqn:Hint; [discriminate|].
  destruct (float_negative target) eqn:Hfloat; [discriminate|].
  intros _. split; [reflexivity|apply passes_valid_target; assumption].
Qed.

Lemma seek_keeps_grabbed target self self' :
  seek round_frames target self = Return self' -> _has_grabbed self' = true.
Proof.
  intros Hseek. destruct (seek_returns _ _ _ Hseek) as [Hdev Hvalid].
  rewrite (seek_general_path round_frames target self Hdev Hvalid) in Hseek.
  injection Hseek; intros <-. reflexivity.
Qed.

Lemma read_keeps_grabbed (decode advance : bool) self :
  _has_grabbed self = true -> _has_grabbed (snd (read decode advance self)) = true.
Proof.
  intros Hg. unfold read.
  destruct (isOpened (_cap self)); simpl; [|assumption].
  destruct advance; simpl.
  - destruct decode; simpl; [|reflexivity].
    destruct (retrieve (grab (_cap self))) as [c [ok frame]]. reflexivity.
  - rewrite Hg. destruct decode; simpl; [|assumption].
    destruct (retrieve (_cap self)) as [c [ok frame]]. assumption.
Qed.

Lemma run_app (calls1 calls2 : list call) self :
  run round_frames (calls1 ++ calls2) self =
  run round_frames calls2 (run round_frames calls1 self).
Proof. unfold run. apply fold_left_app. Qed.

Lemma run_keeps_grabbed (calls : list call) self :
  _has_grabbed self = true -> _has_grabbed (run round_frames calls self) = true.
Proof.
  revert self. unfold run.
  induction calls as [|c calls IH]; intros self Hg; simpl; [assumption|].
  apply IH. destruct c as [target|decode advance]; simpl.
  - destruct (seek round_frames target self) as [self'|e] eqn:Hseek; [|assumption].
    eapply seek_keeps_grabbed, Hseek.
  - apply read_keeps_grabbed, Hg.
Qed.

(** The states an opened adapter goes through under any calls of [seek] and
    [read]: never SEEK_PENDING, and once POSITIONED it stays POSITIONED, so
    it does not come back to INITIAL. *)
Theorem reachable_states (source : path_or_device) (override : option Q)
        (calls more : list call) self :
  snd (__init__ MINIMUM_FRAMES_PER_SECOND_FLOAT os_path_exists source override)
    = Return self ->
  state_of (run round_frames calls self) <> SEEK_PENDING /\
  (state_of (run round_frames calls self) = POSITIONED ->
   state_of (run round_frames (calls ++ more) self) = POSITIONED).
Proof.
  intros Hinit.
  pose proof (init_not_seeked _ _ _ _ _ Hinit) as Hns.
  assert (Hstate : forall cs,
    state_of (run round_frames cs self) =
    if _has_grabbed (run round_frames cs self) then POSITIONED else INITIAL).
  { intros cs. unfold state_of. rewrite (run_keeps_not_seeked _ cs self Hns).
    reflexivity. }
  split.
  - rewrite Hstate. destruct (_has_grabbed _); discriminate.
  - rewrite !Hstate. rewrite run_app.
    destruct (_has_grabbed (run round_frames calls self)) eqn:Hg; [|discriminate].
    intros _. rewrite (run_keeps_grabbed more _ Hg). reflexivity.
Qed.

(** The frame that [position] names: one less than [frame_number], and frame
    0 before the first frame. *)
Lemma position_frames self :
  position round_frames self =
  FrameTimecode_new (Z.max 0 (frame_number self - 1)) (frame_rate self).
Proof.
  unfold position, base_timecode, FrameTimecode_new; simpl.
  destruct (Z.ltb_spec (frame_number self) 1); f_equal; lia.
Qed.

Lemma read_advance_counts (decode : bool) self :
  counts_frames cap -> retrieve_reads_only cap ->
  isOpened (_cap self) = true ->
  frame_number self < frame_count (_cap self) ->
  frame_number (snd (read decode true self)) = frame_number self + 1 /\
  isOpened (_cap (snd (read decode true self))) = true /\
  frame_count (_cap (snd (read decode true self))) = frame_count (_cap self).
Proof.
  intros Laws Hpure Hopen Hlt.
  destruct (grab_keeps Laws (_cap self)) as [Hopen' Hcount'].
  pose proof (grab_advances Laws (_cap self) Hopen Hlt) as Hpos.
  unfold read. rewrite Hopen. simpl.
  destruct decode; simpl.
  - pose proof (Hpure (grab (_cap self))) as Hret.
    destruct (retrieve (grab (_cap self))) as [c [ok frame]].
    simpl in Hret. subst c. unfold frame_number; simpl.
    repeat split; [exact Hpos|congruence|exact Hcount'].
  - unfold frame_number; simpl.
    repeat split; [exact Hpos|congruence|exact Hcount'].
Qed.

(** On a decoder that counts frames, [n] reads with [advance=True] that stay
    within the stream move [frame_number] on by [n], decoding or not; the
    position is then the timecode of frame [frame_number - 1]. *)
Theorem reads_advance_frame_number (n : nat) (decode : bool) self :
  counts_frames cap -> retrieve_reads_only cap ->
  isOpened (_cap self) = true ->
  frame_number self + Z.of_nat n <= frame_count (_cap self) ->
  let self' := run round_frames (repeat (Read decode true) n) self in
  frame_number self' = frame_number self + Z.of_nat n /\
  position round_frames self' =
    FrameTimecode_new (Z.max 0 (frame_number self + Z.of_nat n - 1)) (frame_rate self).
Proof.
  intros Laws Hpure Hopen Hle self'.
  assert (H : frame_number self' = frame_number self + Z.of_nat n /\
              frame_rate self' = frame_rate self).
  { subst self'. revert self Hopen Hle.
    induction n as [|n IH]; intros self Hopen Hle.
    - simpl. split; [lia|reflexivity].
    - destruct (read_advance_counts decode self Laws Hpure Hopen) as (Hfn & Ho & Hc);
        [lia|].
      change (run round_frames (repeat (Read decode true) (S n)) self)
        with (run round_frames (repeat (Read decode true) n)
                (snd (read decode true self))).
      destruct (IH (snd (read decode true self)) Ho) as [IHfn IHrate];
        [rewrite Hfn, Hc; lia|].
      split; [rewrite IHfn, Hfn; lia|].
      rewrite IHrate. unfold read. destruct (isOpened (_cap self)); simpl; [|reflexivity].
      destruct decode; simpl; [|reflexivity].
      destruct (retrieve (grab (_cap self))) as [c [ok frame]]. reflexivity. }
  destruct H as [Hfn Hrate]. split; [exact Hfn|].
  rewrite position_frames, Hfn, Hrate. reflexivity.
Qed.

(** On a decoder that counts frames, a [seek] to a valid target whose frame
    lies within the stream is reported back by [position]: the position is
    the timecode of the target frame at the rate of the stream, which for a
    timecode target of that rate is the target itself, and it lies before
    [duration]. *)
Theorem seek_then_position target self :
  counts_frames cap ->
  _is_device self = false ->
  isOpened (_cap self) = true ->
  valid_target target ->
  0 <= target_frame_cv2 round_frames self target < frame_count (_cap self) ->
  exists self',
    seek round_frames target self = Return self' /\
    position round_frames self' =
      FrameTimecode_new (target_frame_cv2 round_frames self target) (frame_rate self) /\
    (forall t, target = TargetTimecode t -> framerate t = frame_rate self ->
       position round_frames self' = t) /\
    (exists d, duration round_frames self' = Some d /\
       get_frames (position round_frames self') < get_frames d).
Proof.
  intros Laws Hdev Hopen Hvalid Hin.
  set (tf := target_frame_cv2 round_frames self target) in *.
  eexists. split; [apply seek_general_path; assumption|]. fold tf.
  set (c1 := cap_set (_cap self) CAP_PROP_POS_FRAMES (inject_Z tf)).
  destruct (set_keeps Laws (_cap self) (inject_Z tf)) as [Hopen1 Hcount1].
  fold c1 in Hopen1, Hcount1.
  assert (Hpos1 : pos_frames c1 = tf) by (apply (set_positions Laws); lia).
  destruct (grab_keeps Laws c1) as [Hopen2 Hcount2].
  assert (Hpos2 : pos_frames (grab c1) = tf + 1).
  { rewrite (grab_advances Laws); [lia|congruence|lia]. }
  assert (Hposition :
    position round_frames
      {| super := super self; _path_or_device := _path_or_device self;
         _is_device := _is_device self; _cap := grab c1;
         _frame_rate := _frame_rate self; _has_seeked := _has_seeked self;
         _has_grabbed := true |} = FrameTimecode_new tf (frame_rate self)).
  { rewrite position_frames. unfold frame_number, frame_rate; simpl.
    fold (pos_frames (grab c1)). rewrite Hpos2. f_equal. lia. }
  split; [exact Hposition|]. split.
  - intros t -> Hrate. rewrite Hposition. unfold FrameTimecode_new.
    destruct t as [n r]; simpl in *. subst r. f_equal.
  - rewrite Hposition. unfold duration; simpl. rewrite Hdev.
    eexists. split; [reflexivity|]. simpl.
    fold (frame_count (grab c1)). rewrite Hcount2, Hcount1. lia.
Qed.

(** ** Reset *)

Lemma open_capture_again (source : path_or_device) (override : option Q)
      (log : list log_record) (c : cap) (rate : Q) :
  _open_capture MINIMUM_FRAMES_PER_SECOND_FLOAT os_path_exists source override
    = (log, Return (c, rate)) ->
  _open_capture MINIMUM_FRAMES_PER_SECOND_FLOAT os_path_exists source (Some rate)
    = (log, Return (c, rate)).
Proof.
  unfold _open_capture.
  destruct (negative_device source); [discriminate|].
  destruct (file_not_found os_path_exists source); [discriminate|].
  destruct (isOpened (cv2_VideoCapture source)); simpl; [|discriminate].
  set (reported := cap_get (cv2_VideoCapture source) CAP_PROP_FPS).
  set (l := if math_trunc (Qabs (cap_get (cv2_VideoCapture source) CAP_PROP_FOURCC)) =? 0
            then [codec_error] else []).
  assert (Hqueried :
    (if Qltb reported MINIMUM_FRAMES_PER_SECOND_FLOAT
     then (l, Raise open_failure_framerate)
     else (l, Return (cv2_VideoCapture source, reported))) = (log, Return (c, rate)) ->
    (if Qeq_bool rate 0
     then if Qltb reported MINIMUM_FRAMES_PER_SECOND_FLOAT
          then (l, Raise open_failure_framerate)
          else (l, Return (cv2_VideoCapture source, reported))
     else (l, Return (cv2_VideoCapture source, rate))) = (log, Return (c, rate))).
  { destruct (Qltb reported _); [discriminate|].
    intros H; injection H; intros <- <- <-. destruct (Qeq_bool reported 0); reflexivity. }
  destruct override as [r|]; [destruct (Qeq_bool r 0) eqn:Hz|]; try exact Hqueried.
  intros H; injection H; intros <- <- <-. rewrite Hz. reflexivity.
Qed.

Lemma step_keeps_identity (c : call) self :
  super (step round_frames self c) = super self /\
  _path_or_device (step round_frames self c) = _path_or_device self /\
  _is_device (step round_frames self c) = _is_device self /\
  _frame_rate (step round_frames self c) = _frame_rate self.
Proof.
  destruct c as [target|decode advance]; simpl.
  - destruct (seek round_frames target self) as [self'|e] eqn:Hseek; [|repeat split].
    destruct (seek_returns _ _ _ Hseek) as [Hdev Hvalid].
    rewrite (seek_general_path round_frames target self Hdev Hvalid) in Hseek.
    injection Hseek; intros <-. repeat split.
  - unfold read. destruct (isOpened (_cap self)); simpl; [|repeat split].
    destruct advance; simpl.
    + destruct decode; simpl; [|repeat split].
      destruct (retrieve (grab (_cap self))) as [c [ok frame]]. repeat split.
    + destruct (decode && _has_grabbed self); simpl; [|repeat split].
      destruct (retrieve (_cap self)) as [c [ok frame]]. repeat split.
Qed.

Lemma run_keeps_identity (calls : list call) self :
  super (run round_frames calls self) = super self /\
  _path_or_device (run round_frames calls self) = _path_or_device self /\
  _is_device (run round_frames calls self) = _is_device self /\
  _frame_rate (run round_frames calls self) = _frame_rate self.
Proof.
  revert self. unfold run.
  induction calls as [|c calls IH]; intros self; simpl; [repeat split|].
  destruct (IH (step round_frames self c)) as (H1 & H2 & H3 & H4).
  destruct (step_keeps_identity c self) as (G1 & G2 & G3 & G4).
  repeat split; congruence.
Qed.

(** [reset] undoes every sequence of [seek] and [read] calls: as long as the
    source opens as it did, the adapter is again as [__init__] left it, with
    the frame rate resolved at opening (an override included) and with the
    downscale factor assigned since; it logs what opening logged. *)
Theorem reset_restores (source : path_or_device) (override : option Q)
        (calls : list call) (base : VideoStream) self :
  snd (__init__ MINIMUM_FRAMES_PER_SECOND_FLOAT os_path_exists source override)
    = Return self ->
  reset MINIMUM_FRAMES_PER_SECOND_FLOAT os_path_exists release
    (with_super base (run round_frames calls self)) =
  (fst (__init__ MINIMUM_FRAMES_PER_SECOND_FLOAT os_path_exists source override),
   (with_super base self, None)).
Proof.
  unfold __init__.
  destruct (_open_capture _ _ source override) as [log [[c rate]|e]] eqn:Hopen;
    simpl; [|discriminate].
  intros H; injection H; intros <-.
  destruct (run_keeps_identity calls
              {| super := VideoStream_init; _path_or_device := source;
                 _is_device := is_int_device source; _cap := c;
                 _frame_rate := rate; _has_seeked := false;
                 _has_grabbed := false |}) as (_ & Hsrc & Hdev & Hrate).
  simpl in Hsrc, Hdev, Hrate.
  unfold reset; simpl. rewrite Hsrc, Hrate, Hdev.
  rewrite (open_capture_again _ _ _ _ _ Hopen). reflexivity.
Qed.

(** ** Downscaling an adapter *)

(** [downscale_auto] never raises and never warns: it stores the default
    factor for the width of the frame, after which the effective size is the
    frame size divided by that factor, at least 200 wide for a frame at least
    400 wide. *)
Theorem downscale_auto_keeps_200 self :
  exists f,
    compute_downscale_factor (fst (frame_size self)) = Return f /\
    downscale_auto self = ([], Return (with_super {| _downscale := PyInt f |} self)) /\
    frame_size_effective (with_super {| _downscale := PyInt f |} self) =
      EffectiveSize (inject_Z (fst (frame_size self)) / inject_Z f)
                    (inject_Z (snd (frame_size self)) / inject_Z f) /\
    (400 <= fst (frame_size self) ->
     (200 <= inject_Z (fst (frame_size self)) / inject_Z f)%Q).
Proof.
  destruct (compute_downscale_factor_range (fst (frame_size self)))
    as (f & Hf & Hrange & Hwide & _).
  exists f. split; [exact Hf|]. split; [|split].
  - unfold downscale_auto. rewrite Hf. unfold downscale_setter; simpl.
    assert (Hlt : (f <? 1) = false) by (apply Z.ltb_ge; lia).
    rewrite Hlt. reflexivity.
  - unfold frame_size_effective. simpl.
    assert (Hz : (f =? 0) = false) by (apply Z.eqb_neq; lia).
    rewrite Hz. reflexivity.
  - intros Hw. specialize (Hwide Hw).
    apply Qle_shift_div_l.
    + unfold Qlt, inject_Z; cbn [Qnum Qden]. lia.
    + unfold Qle, Qmult, inject_Z; cbn [Qnum Qden]. lia.
Qed.

(** Whatever is assigned to [downscale] on an opened adapter, and however
    many times, [frame_size_effective] does not divide by zero: it is the
    frame size divided by an integer that is at least 1. *)
Theorem frame_size_effective_divides (source : path_or_device) (override : option Q)
        (vs : list pyval) self :
  snd (__init__ MINIMUM_FRAMES_PER_SECOND_FLOAT os_path_exists source override)
    = Return self ->
  exists d,
    1 <= d /\
    downscale (assign_downscales vs (super self)) = PyInt d /\
    frame_size_effective (with_super (assign_downscales vs (super self)) self) =
      EffectiveSize (inject_Z (fst (frame_size self)) / inject_Z d)
                    (inject_Z (snd (frame_size self)) / inject_Z d).
Proof.
  intros Hinit.
  assert (Hdown : downscale (super self) = PyInt 1).
  { revert Hinit. unfold __init__.
    destruct (_open_capture _ _ source override) as [log [[c rate]|e]];
      simpl; [|discriminate].
    intros H; injection H; intros <-. reflexivity. }
  destruct (assign_downscales_invariant vs (super self)) as (d & Hd & Hge).
  { exists 1. split; [exact Hdown|lia]. }
  exists d. split; [exact Hge|]. split; [exact Hd|].
  unfold frame_size_effective, downscale; simpl. rewrite Hd.
  assert (Hz : (d =? 0) = false) by (apply Z.eqb_neq; lia).
  rewrite Hz. reflexivity.
Qed.

End RestFacts.

(** * The further facts on the simulated decoder *)

Lemma sim_retrieve_reads_only : retrieve_reads_only Sim.clip.
Proof.
  intros c. simpl. unfold Sim.clip_retrieve.
  destruct (Sim.clip_opened c && (1 <=? Sim.clip_pos c)
            && (Sim.clip_pos c <=? Sim.clip_frames c)); reflexivity.
Qed.

Lemma init_rejects_negative_device_witness :
  Sim.init (Device (-1)) (Some (25 # 1)) =
  ([], Raise (ValueError "Invalid/negative device ID specified.")).
Proof.
  apply (init_rejects_negative_device Sim.MINIMUM_FRAMES_PER_SECOND_FLOAT
           Sim.os_path_exists (-1) (Some (25 # 1))).
  lia.
Defined.

Lemma init_checks_local_paths_only_witness :
  Sim.init (Path "missing.mp4") None = ([], Raise (IOError "Video file not found.")) /\
  Sim.init (Path "rtsp://camera/live") None = ([], Raise open_failure_not_opened).
Proof.
  split.
  - destruct (init_checks_local_paths_only Sim.MINIMUM_FRAMES_PER_SECOND_FLOAT
                Sim.os_path_exists "missing.mp4" None) as [Hmissing _].
    apply Hmissing; reflexivity.
  - destruct (init_checks_local_paths_only Sim.MINIMUM_FRAMES_PER_SECOND_FLOAT
                Sim.os_path_exists "rtsp://camera/live" None) as [_ Hurl].
    unfold Sim.init. rewrite (Hurl "rtsp" "camera/live"); [reflexivity|].
    left. reflexivity.
Defined.

Lemma init_succeeds_iff_witness :
  exists self, snd (Sim.init (Path "still.mp4") (Some (25 # 1))) = Return self.
Proof.
  apply (init_succeeds_iff Sim.MINIMUM_FRAMES_PER_SECOND_FLOAT Sim.os_path_exists
           (Path "still.mp4") (Some (25 # 1))).
  split; [reflexivity|]. split; [reflexivity|]. split; [reflexivity|].
  left. exists (25 # 1). split; [reflexivity|]. unfold Qeq; simpl. lia.
Defined.

Lemma init_establishes_witness :
  snd (Sim.init (Path "clip.mp4") None) = Return Sim.file_stream /\
  state_of Sim.file_stream = INITIAL /\
  ~ frame_rate Sim.file_stream == 0.
Proof.
  destruct (init_establishes Sim.MINIMUM_FRAMES_PER_SECOND_FLOAT Sim.os_path_exists
              (Path "clip.mp4") None Sim.file_stream)
    as (_ & _ & _ & _ & Hstate & _ & _ & Hrate); [reflexivity|].
  split; [reflexivity|]. split; [exact Hstate|].
  apply Hrate. unfold Qlt; simpl. lia.
Defined.

Lemma position_ms_never_raises_witness :
  position_ms
    (run math_trunc [Seek (TargetInt 5); Read false false; Seek (TargetFloat (1 # 2))]
       Sim.file_stream) = Return (12000 # 24).
Proof.
  rewrite (position_ms_never_raises Sim.MINIMUM_FRAMES_PER_SECOND_FLOAT
             Sim.os_path_exists math_trunc (Path "clip.mp4") None).
  - vm_compute. reflexivity.
  - reflexivity.
Defined.

Lemma reachable_states_witness :
  state_of (run math_trunc [Read true true] Sim.file_stream) = POSITIONED /\
  state_of (run math_trunc ([Read true true] ++ [Seek (TargetInt 7); Read false false])
              Sim.file_stream) = POSITIONED.
Proof.
  destruct (reachable_states Sim.MINIMUM_FRAMES_PER_SECOND_FLOAT Sim.os_path_exists
              math_trunc (Path "clip.mp4") None [Read true true]
              [Seek (TargetInt 7); Read false false] Sim.file_stream)
    as [_ Hstays]; [reflexivity|].
  split; [reflexivity|]. apply Hstays. reflexivity.
Defined.

Lemma reads_advance_frame_number_witness :
  frame_number (run math_trunc (repeat (Read false true) 3) Sim.file_stream) = 3 /\
  get_frames (position math_trunc
                (run math_trunc (repeat (Read false true) 3) Sim.file_stream)) = 2.
Proof.
  destruct (reads_advance_frame_number math_trunc 3 false Sim.file_stream)
    as [Hfn Hposition].
  - exact sim_counts_frames.
  - exact sim_retrieve_reads_only.
  - reflexivity.
  - vm_compute. discriminate.
  - split; [rewrite Hfn; reflexivity|rewrite Hposition; reflexivity].
Defined.

Lemma seek_then_position_witness :
  exists self',
    seek math_trunc (TargetTimecode (FrameTimecode_new 40 24)) Sim.file_stream
      = Return self' /\
    position math_trunc self' = FrameTimecode_new 40 24.
Proof.
  destruct (seek_then_position math_trunc (TargetTimecode (FrameTimecode_new 40 24))
              Sim.file_stream) as (self' & Hseek & _ & Hround & _).
  - exact sim_counts_frames.
  - reflexivity.
  - reflexivity.
  - exact I.
  - vm_compute. split; [discriminate|reflexivity].
  - exists self'. split; [exact Hseek|].
    apply (Hround (FrameTimecode_new 40 24)); reflexivity.
Defined.

Lemma reset_restores_witness :
  reset Sim.MINIMUM_FRAMES_PER_SECOND_FLOAT Sim.os_path_exists Sim.clip_release
    (with_super {| _downscale := PyInt 2 |}
       (run math_trunc [Read true true; Seek (TargetInt 9)] Sim.file_stream)) =
  ([], (with_super {| _downscale := PyInt 2 |} Sim.file_stream, None)).
Proof.
  rewrite (reset_restores Sim.MINIMUM_FRAMES_PER_SECOND_FLOAT Sim.os_path_exists
             Sim.clip_release math_trunc (Path "clip.mp4") None
             [Read true true; Seek (TargetInt 9)] {| _downscale := PyInt 2 |}
             Sim.file_stream).
  - reflexivity.
  - reflexivity.
Defined.

Lemma downscale_auto_keeps_200_witness :
  downscale_auto Sim.file_stream =
    ([], Return (with_super {| _downscale := PyInt 5 |} Sim.file_stream)) /\
  (200 <= inject_Z 1280 / inject_Z 5)%Q.
Proof.
  destruct (downscale_auto_keeps_200 Sim.file_stream) as (f & Hf & Hauto & _ & Hwide).
  assert (Hfive : f = 5).
  { vm_compute in Hf. injection Hf as <-. reflexivity. }
  subst f. split; [exact Hauto|].
  apply Hwide. vm_compute. discriminate.
Defined.

Lemma frame_size_effective_divides_witness :
  exists d,
    1 <= d /\
    frame_size_effective
      (with_super (assign_downscales [PyInt 0; PyFloat (Finite (27 # 10)); PyNone]
                     (super Sim.file_stream)) Sim.file_stream) =
    EffectiveSize (inject_Z 1280 / inject_Z d) (inject_Z 720 / inject_Z d).
Proof.
  destruct (frame_size_effective_divides Sim.MINIMUM_FRAMES_PER_SECOND_FLOAT
              Sim.os_path_exists (Path "clip.mp4") None
              [PyInt 0; PyFloat (Finite (27 # 10)); PyNone] Sim.file_stream)
    as (d & Hd & _ & Hsize); [reflexivity|].
  exists d. split; [exact Hd|exact Hsize].
Defined.
